(** * Financial-Advisor: the transaction merge pipeline of [App]

    A shallow embedding of [addTransaction] and [addTransactions] (the
    [setTransactions] updaters of the top-level [App] component) together
    with the JavaScript built-ins they call, and the properties of the
    deduplication filter and the fixed-bill (recurrence) classifier.

    Conventions of the embedding.
    - A JavaScript string is a [string]: a sequence of code units, here the
      code units U+0000..U+00FF (Latin-1), on which [toLowerCase] and [trim]
      are modelled exactly.
    - A JavaScript number is a [float]: IEEE 754 binary64 with
      round-to-nearest-even, the arithmetic of [Math.abs], [-] and [<].
    - [new Date(s)] is implementation-defined on strings outside the ISO
      format and local-time dependent, so the parser is a parameter of the
      development ([newDate]); an Invalid Date is [None] and its getters
      return NaN.
    - The React state [transactions] is threaded explicitly: an updater
      [prev => next] is a function on [list Transaction]. *)

From Stdlib Require Import Bool List Arith Lia ZArith.
From Stdlib Require Import Ascii String DecimalString.
From Stdlib Require Import Floats.
Import ListNotations.

Local Open Scope string_scope.
Local Open Scope bool_scope.

(** ** JavaScript string built-ins *)

(** Code-unit value of a character. *)
Definition code (c : ascii) : nat := nat_of_ascii c.

(** [String.prototype.toLowerCase] on one Latin-1 code unit: A-Z and the
    accented capitals U+00C0..U+00DE (except the multiplication sign U+00D7)
    move up by 32; every other code unit is unchanged. *)
Definition lowerChar (c : ascii) : ascii :=
  let n := code c in
  if (((65 <=? n) && (n <=? 90))
      || ((192 <=? n) && (n <=? 222) && negb (n =? 215)))%nat
  then ascii_of_nat (n + 32)
  else c.

Fixpoint toLowerCase (s : string) : string :=
  match s with
  | EmptyString => EmptyString
  | String c r => String (lowerChar c) (toLowerCase r)
  end.

(** WhiteSpace and LineTerminator code units below U+0100: TAB, LF, VT, FF,
    CR, SPACE and NO-BREAK SPACE. *)
Definition isWhiteSpace (c : ascii) : bool :=
  let n := code c in
  (((9 <=? n) && (n <=? 13)) || (n =? 32) || (n =? 160))%nat.

Fixpoint trimStart (s : string) : string :=
  match s with
  | EmptyString => EmptyString
  | String c r => if isWhiteSpace c then trimStart r else s
  end.

Fixpoint trimEnd (s : string) : string :=
  match s with
  | EmptyString => EmptyString
  | String c r =>
      match trimEnd r with
      | EmptyString => if isWhiteSpace c then EmptyString else String c EmptyString
      | r' => String c r'
      end
  end.

(** [String.prototype.trim]. *)
Definition trim (s : string) : string := trimEnd (trimStart s).

(** [stripPrefix p s] is [Some r] when [s = p ++ r]: the match of a literal
    search string at position 0. *)
Fixpoint stripPrefix (p s : string) : option string :=
  match p with
  | EmptyString => Some s
  | String a p' =>
      match s with
      | EmptyString => None
      | String b s' => if Ascii.eqb a b then stripPrefix p' s' else None
      end
  end.

(** [s.replace(searchValue, replaceValue)] with a string [searchValue]: only
    the first occurrence, wherever it starts, is replaced.  ([replaceValue]
    is taken literally, which is what JavaScript does when it holds no [$];
    the source only passes the empty string.) *)
Fixpoint replace (searchValue replaceValue s : string) : string :=
  match stripPrefix searchValue s with
  | Some rest => replaceValue ++ rest
  | None =>
      match s with
      | EmptyString => EmptyString
      | String c r => String c (replace searchValue replaceValue r)
      end
  end.

(** [s.includes(sub)]. *)
Fixpoint includes (s sub : string) : bool :=
  match stripPrefix sub s with
  | Some _ => true
  | None =>
      match s with
      | EmptyString => false
      | String _ r => includes r sub
      end
  end.

(** [s.split(sep)[0]] for a one-character separator: the text before the
    first [sep], the whole string when there is none. *)
Fixpoint splitHead (sep : ascii) (s : string) : string :=
  match s with
  | EmptyString => EmptyString
  | String c r => if Ascii.eqb c sep then EmptyString else String c (splitHead sep r)
  end.

(** Strict equality [===] of two strings. *)
Definition strictEq (a b : string) : bool := String.eqb a b.

(** ** JavaScript numbers *)

(** [Math.abs(a - b) < bound]. *)
Definition absDiffBelow (a b bound : float) : bool :=
  PrimFloat.ltb (PrimFloat.abs (PrimFloat.sub a b)) bound.

(** The literal [0.01]: the binary64 nearest to one hundredth. *)
Definition cent : float := 0x1.47ae147ae147bp-7%float.

(** The literal [10.00]. *)
Definition tenDollars : float := 10%float.

(** ** JavaScript dates *)

(** The local-time fields of a valid [Date] object that the application
    reads: [getFullYear()] and [getMonth()] (0 for January .. 11 for
    December). *)
Record JSDate : Type := mkDate { getFullYear : Z; getMonth : nat }.

(** [d.getMonth()] as a JavaScript number: [None] stands for NaN, the value
    every getter of an Invalid Date returns. *)
Definition monthNumber (d : option JSDate) : option nat := option_map getMonth d.

(** Strict inequality [!==] of two numbers that are month indices or NaN:
    NaN is unequal to everything, itself included. *)
Definition strictNeq (a b : option nat) : bool :=
  match a, b with
  | Some x, Some y => negb (x =? y)%nat
  | _, _ => true
  end.

(** ** types.ts *)

Inductive TransactionType : Type := income | fixed_bill | flexible_bill | spending.

Record Transaction : Type := mkTransaction {
  id : string;
  date : string;
  merchant : string;
  amount : float;
  type : TransactionType;
  category : string
}.

Definition isIncome (t : TransactionType) : bool :=
  match t with income => true | _ => false end.

Definition isFixedBill (t : TransactionType) : bool :=
  match t with fixed_bill => true | _ => false end.

(** The object spread [{ ...tx, type: t }]. *)
Definition withType (tx : Transaction) (t : TransactionType) : Transaction :=
  {| id := id tx; date := date tx; merchant := merchant tx;
     amount := amount tx; type := t; category := category tx |}.

(** ** App.tsx: the state updaters *)

(** [addTransaction]: [setTransactions(prev => [transaction, ...prev])]. *)
Definition addTransaction (transaction : Transaction) (prev : list Transaction)
  : list Transaction :=
  transaction :: prev.

(** The callback of [prev.some] in step 1: same text before the first [T] of
    the date, amounts less than 0.01 apart, same merchant after
    [toLowerCase().trim()]. *)
Definition isDuplicateOf (newTx existingTx : Transaction) : bool :=
  strictEq (splitHead "T" (date existingTx)) (splitHead "T" (date newTx))
  && absDiffBelow (amount existingTx) (amount newTx) cent
  && strictEq (trim (toLowerCase (merchant existingTx)))
              (trim (toLowerCase (merchant newTx))).

Definition isDuplicate (prev : list Transaction) (newTx : Transaction) : bool :=
  existsb (isDuplicateOf newTx) prev.

(** Step 1, [uniqueNew]: the incoming records with no duplicate in [prev]. *)
Definition uniqueNew (prev newTransactions : list Transaction) : list Transaction :=
  filter (fun newTx => negb (isDuplicate prev newTx)) newTransactions.

(** [cleanName]: three chained [replace] calls between [toLowerCase] and
    [trim]. *)
Definition cleanName (name : string) : string :=
  trim (replace "transfer to " ""
         (replace "zelle transfer to " ""
           (replace "zelle to " "" (toLowerCase name)))).

Section App.

(** [newDate s] is [new Date(s)] in the runtime at hand. *)
Variable newDate : string -> option JSDate.

Definition differentMonth (existingTx tx : Transaction) : bool :=
  strictNeq (monthNumber (newDate (date existingTx)))
            (monthNumber (newDate (date tx))).

(** The callback of [prev.some] in step 2. *)
Definition isEvidence (tx existingTx : Transaction) : bool :=
  if isIncome (type existingTx) then false
  else
    let currentName := cleanName (merchant tx) in
    let prevName := cleanName (merchant existingTx) in
    let nameMatch :=
      strictEq prevName currentName
      || includes prevName currentName
      || includes currentName prevName in
    let amountMatch := absDiffBelow (amount existingTx) (amount tx) tenDollars in
    nameMatch && amountMatch && differentMonth existingTx tx.

Definition isRecurring (prev : list Transaction) (tx : Transaction) : bool :=
  existsb (isEvidence tx) prev.

(** The callback of [uniqueNew.map] in step 2. *)
Definition classify (prev : list Transaction) (tx : Transaction) : Transaction :=
  if isIncome (type tx) then tx
  else if isRecurring prev tx then withType tx fixed_bill
  else if isFixedBill (type tx) then tx
  else tx.

Definition processedNew (prev newTransactions : list Transaction)
  : list Transaction :=
  map (classify prev) (uniqueNew prev newTransactions).

(** [addTransactions]:
    [setTransactions(prev => [...processedNew, ...prev])]. *)
Definition addTransactions (newTransactions prev : list Transaction)
  : list Transaction :=
  processedNew prev newTransactions ++ prev.

End App.

(** The two components under the names the design gives them;
    [processedNew prev b] is [classifyRecurring prev (dedupe prev b)]. *)
Definition dedupe (existing incoming : list Transaction) : list Transaction :=
  uniqueNew existing incoming.

Definition classifyRecurring (newDate : string -> option JSDate)
  (existing incoming : list Transaction) : list Transaction :=
  map (classify newDate existing) incoming.

(** [updateTransaction]:
    [setTransactions(prev => prev.map(t => t.id === updatedTx.id ? updatedTx : t))]. *)
Definition updateTransaction (updatedTx : Transaction) (prev : list Transaction)
  : list Transaction :=
  map (fun t => if strictEq (id t) (id updatedTx) then updatedTx else t) prev.

(** [deleteTransaction]:
    [setTransactions(prev => prev.filter(t => t.id !== id))]. *)
Definition deleteTransaction (id0 : string) (prev : list Transaction)
  : list Transaction :=
  filter (fun t => negb (strictEq (id t) id0)) prev.

(** ** Dashboard.tsx and ExportData.tsx: the month and year views *)

(** Strict equality [===] of two numbers, [None] being NaN: NaN equals
    nothing. *)
Definition strictEqNum {A : Type} (eqb : A -> A -> bool) (a b : option A) : bool :=
  match a, b with
  | Some x, Some y => eqb x y
  | _, _ => false
  end.

(** [d.getFullYear()] as a JavaScript number. *)
Definition yearNumber (d : option JSDate) : option Z := option_map getFullYear d.

(** The result of an export button: an [alert] and nothing else, or a call
    of [triggerDownload(csvContent, filename)]. *)
Inductive ExportResult : Type :=
| Alerted (message : string)
| Downloaded (csvContent filename : string).

(** [t.type] as the string it is. *)
Definition typeName (t : TransactionType) : string :=
  match t with
  | income => "income"
  | fixed_bill => "fixed_bill"
  | flexible_bill => "flexible_bill"
  | spending => "spending"
  end.

(** The double quote character, U+0022, and the line feed, U+000A. *)
Definition dquote : ascii := "034"%char.

Definition lineFeed : ascii := "010"%char.

(** [s.replace(/q/g, qq)], where [q] is the double quote and [qq] two of
    them: every double quote of [s] is doubled. *)
Fixpoint escapeQuotes (s : string) : string :=
  match s with
  | EmptyString => EmptyString
  | String c r =>
      if Ascii.eqb c dquote then String dquote (String dquote (escapeQuotes r))
      else String c (escapeQuotes r)
  end.

(** How a CSV reader (RFC 4180) reads a quoted field once past its opening
    quote: two double quotes are one double quote of the text, a single one
    closes the field.  The result is the text and the input left after the
    closing quote; [None] when the field is never closed. *)
Fixpoint readQuoted (s : string) : option (string * string) :=
  match s with
  | EmptyString => None
  | String c r =>
      if Ascii.eqb c dquote then
        match r with
        | String c2 r2 =>
            if Ascii.eqb c2 dquote then
              match readQuoted r2 with
              | Some (text, rest) => Some (String dquote text, rest)
              | None => None
              end
            else Some (EmptyString, r)
        | EmptyString => Some (EmptyString, EmptyString)
        end
      else
        match readQuoted r with
        | Some (text, rest) => Some (String c text, rest)
        | None => None
        end
  end.

(** [s.replace(/ /g, '_')]. *)
Fixpoint spacesToUnderscores (s : string) : string :=
  match s with
  | EmptyString => EmptyString
  | String c r =>
      String (if Ascii.eqb c " "%char then "_"%char else c) (spacesToUnderscores r)
  end.

(** A number that is an integer below 10^21 in a template literal: its
    decimal digits, with a minus sign when negative; ["NaN"] for NaN. *)
Definition numberToString (n : option Z) : string :=
  match n with
  | Some z => DecimalString.NilZero.string_of_int (Z.to_int z)
  | None => "NaN"
  end.

Section Views.

(** [new Date(s)] in the runtime at hand, as in [App]. *)
Variable newDate : string -> option JSDate.

(** The month the user selected: a [Date] object, [None] when invalid. *)
Variable selectedMonth : option JSDate.

(** The [filter] callback of [filteredTransactions] (Dashboard) and of
    [monthTx] (ExportData): same month index and same year. *)
Definition inSelectedMonth (t : Transaction) : bool :=
  let d := newDate (date t) in
  strictEqNum Nat.eqb (monthNumber d) (monthNumber selectedMonth)
  && strictEqNum Z.eqb (yearNumber d) (yearNumber selectedMonth).

(** The [filter] callback of [yearTx]. *)
Definition inSelectedYear (t : Transaction) : bool :=
  strictEqNum Z.eqb (yearNumber (newDate (date t))) (yearNumber selectedMonth).

(** Dashboard: [filteredTransactions]. *)
Definition filteredTransactions (transactions : list Transaction) : list Transaction :=
  filter inSelectedMonth transactions.

(** [new Date(s).toLocaleDateString()] in the runtime and locale at hand. *)
Variable toLocaleDateString : string -> string.

(** [x.toFixed(2)]. *)
Variable toFixed2 : float -> string.

(** [d.toLocaleDateString('en-US', { month: 'long', year: 'numeric' })]. *)
Variable monthYearLabel : option JSDate -> string.

(** ExportData: [convertToCSV]. *)
Definition convertToCSV (data : list Transaction) : string :=
  let headers := ["Date"; "Merchant"; "Amount"; "Type"; "Category"; "ID"] in
  let rows :=
    map (fun t =>
           let date := toLocaleDateString (date t) in
           let merchant :=
             String dquote (escapeQuotes (merchant t) ++ String dquote EmptyString) in
           let amount := toFixed2 (amount t) in
           [date; merchant; amount; typeName (type t); category t; id t])
        data in
  String.concat (String lineFeed EmptyString)
    (String.concat "," headers :: map (fun r => String.concat "," r) rows).

(** ExportData: [exportCurrentMonth]. *)
Definition exportCurrentMonth (transactions : list Transaction) : ExportResult :=
  let monthTx := filter inSelectedMonth transactions in
  match monthTx with
  | [] => Alerted "No transactions to export for this month."
  | _ =>
      let csv := convertToCSV monthTx in
      let monthName := monthYearLabel selectedMonth in
      Downloaded csv
        ("Financial_Advisor_" ++ spacesToUnderscores monthName ++ ".csv")
  end.

(** ExportData: [exportYearToDate]. *)
Definition exportYearToDate (transactions : list Transaction) : ExportResult :=
  let yearTx := filter inSelectedYear transactions in
  match yearTx with
  | [] => Alerted "No transactions found for this year."
  | _ =>
      let csv := convertToCSV yearTx in
      Downloaded csv
        ("Financial_Advisor_" ++ numberToString (yearNumber selectedMonth) ++ "_YTD.csv")
  end.

(** ExportData: [exportAll]. *)
Definition exportAll (transactions : list Transaction) : ExportResult :=
  match transactions with
  | [] => Alerted "No transactions to export."
  | _ => Downloaded (convertToCSV transactions) "Financial_Advisor_All_History.csv"
  end.

End Views.

(** ** SmartImports.tsx *)

Inductive ImportType : Type := statement | paystub.

(** An element of [parsedItems]: a [Partial<Transaction>] with the
    [include] flag; [None] is a missing ([undefined]) field. *)
Record ParsedItem : Type := mkItem {
  item_id : option string;
  item_date : option string;
  item_merchant : option string;
  item_amount : option float;
  item_type : option TransactionType;
  item_category : option string;
  include : bool
}.

(** The object [analyzePaystub] resolves to. *)
Record PaystubResult : Type := mkPaystub {
  payer : option string;
  paystub_amount : option float;
  paystub_date : option string
}.

(** The component's state. *)
Record SmartImportsState : Type := mkImports {
  importType : option ImportType;
  parsedItems : list ParsedItem
}.

(** How many ids [uuidv4()] has handed out and how often the clock was read
    ([new Date()]) so far. *)
Record World : Type := mkWorld { uuidCalls : nat; clockReads : nat }.

(** [s || fallback] on an optional string: the empty string and [undefined]
    are falsy. *)
Definition orString (s : option string) (fallback : string) : string :=
  match s with
  | Some (String c r) => String c r
  | _ => fallback
  end.

(** Falsiness of an optional string: [undefined] and the empty string. *)
Definition falsyString (s : option string) : bool :=
  match s with
  | Some (String _ _) => false
  | _ => true
  end.

(** [Number(x)] on an optional number: [Number(undefined)] is NaN. *)
Definition toNumber (x : option float) : float :=
  match x with Some v => v | None => nan end.

(** Truthiness of a number: NaN, [0] and [-0] are falsy. *)
Definition truthyNumber (x : float) : bool := negb (is_nan x || is_zero x).

(** [x || 0]. *)
Definition orZero (x : float) : float := if truthyNumber x then x else 0%float.

(** [updated[index] = v] on a copy, for an index inside the array. *)
Fixpoint setAt {A : Type} (index : nat) (v : A) (l : list A) : list A :=
  match l, index with
  | [], _ => []
  | _ :: r, O => v :: r
  | x :: r, S i => x :: setAt i v r
  end.

(** [toggleInclude]; reading [updated[index].include] outside the array
    throws a TypeError ([None]). *)
Definition toggleInclude (index : nat) (items : list ParsedItem)
  : option (list ParsedItem) :=
  match nth_error items index with
  | Some it =>
      Some (setAt index
              (mkItem (item_id it) (item_date it) (item_merchant it) (item_amount it)
                      (item_type it) (item_category it) (negb (include it)))
              items)
  | None => None
  end.

Section SmartImports.

(** The id the [k]-th call of [uuidv4()] returns, and
    [new Date().toISOString()] at the [k]-th reading of the clock. *)
Variable uuidv4 : nat -> string.
Variable nowISOString : nat -> string.

(** [new Date(s)], as in [App]. *)
Variable newDate : string -> option JSDate.

(** The [map] callback of [confirmImport]: the defaults are evaluated only
    when the field is falsy. *)
Definition toTransaction (item : ParsedItem) (w : World) : Transaction * World :=
  let '(i, w1) :=
    match item_id item with
    | Some (String c r) => (String c r, w)
    | _ => (uuidv4 (uuidCalls w), mkWorld (S (uuidCalls w)) (clockReads w))
    end in
  let '(d, w2) :=
    match item_date item with
    | Some (String c r) => (String c r, w1)
    | _ => (nowISOString (clockReads w1), mkWorld (uuidCalls w1) (S (clockReads w1)))
    end in
  (mkTransaction i d
     (orString (item_merchant item) "Unknown")
     (orZero (toNumber (item_amount item)))
     (match item_type item with Some t => t | None => spending end)
     (orString (item_category item) "Other"),
   w2).

Fixpoint toImport (items : list ParsedItem) (w : World) : list Transaction * World :=
  match items with
  | [] => ([], w)
  | item :: rest =>
      let '(t, w1) := toTransaction item w in
      let '(ts, w2) := toImport rest w1 in
      (t :: ts, w2)
  end.

(** [confirmImport]: the included items, completed, go to
    [onAddTransactions] (which [App] wires to [addTransactions]) unless there
    is none; the component is reset either way. *)
Definition confirmImport (st : SmartImportsState) (transactions : list Transaction)
  (w : World) : SmartImportsState * list Transaction * World :=
  let '(imported, w') := toImport (filter include (parsedItems st)) w in
  let transactions' :=
    match imported with
    | [] => transactions
    | _ => addTransactions newDate imported transactions
    end in
  (mkImports None [], transactions', w').

(** [results.map(r => ({ ...r, id: uuidv4(), include: true }))]. *)
Fixpoint markIncluded (results : list ParsedItem) (w : World)
  : list ParsedItem * World :=
  match results with
  | [] => ([], w)
  | r :: rest =>
      let item :=
        mkItem (Some (uuidv4 (uuidCalls w))) (item_date r) (item_merchant r)
               (item_amount r) (item_type r) (item_category r) true in
      let '(items, w') := markIncluded rest (mkWorld (S (uuidCalls w)) (clockReads w)) in
      (item :: items, w')
  end.

(** [handleFileSelect], the [statement] branch of [reader.onloadend], given
    what [analyzeBankStatement] resolved to. *)
Definition statementAnalyzed (results : list ParsedItem) (st : SmartImportsState)
  (w : World) : SmartImportsState * World :=
  let '(mapped, w') := markIncluded results w in
  (mkImports (importType st) mapped, w').

(** [handleFileSelect], the [paystub] branch, given what [analyzePaystub]
    resolved to ([None] is [null]: reading [result.amount] throws). *)
Definition paystubAnalyzed (result : option PaystubResult) (st : SmartImportsState)
  (w : World) : option (SmartImportsState * World) :=
  match result with
  | None => None
  | Some r =>
      if truthyNumber (toNumber (paystub_amount r)) then
        let i := uuidv4 (uuidCalls w) in
        let w1 := mkWorld (S (uuidCalls w)) (clockReads w) in
        let '(d, w2) :=
          match paystub_date r with
          | Some (String c s) => (String c s, w1)
          | _ => (splitHead "T" (nowISOString (clockReads w1)),
                  mkWorld (uuidCalls w1) (S (clockReads w1)))
          end in
        Some (mkImports (importType st)
                [mkItem (Some i) (Some d) (Some (orString (payer r) "Employer"))
                        (paystub_amount r) (Some income) (Some "Income") true],
              w2)
      else Some (st, w)
  end.

End SmartImports.

(** ** The design's predicates, in its own words *)

(** [s] contains [sub] as a substring. *)
Definition Contains (s sub : string) : Prop := exists a b, s = a ++ sub ++ b.

(** Calendar day of a timestamp: its date part, the time of day dropped
    ([YYYY-MM-DD] out of [YYYY-MM-DDTHH:mm:ss.sssZ], and a date-only string
    as it is). *)
Definition calendarDay (d : string) : string := splitHead "T" d.


(** The Recurrence Classifier's search condition: existing [e] is evidence
    that incoming [n] recurs. *)
Definition RecurrenceEvidence (newDate : string -> option JSDate)
  (n e : Transaction) : Prop :=
  type e <> income
  /\ (let prevName := cleanName (merchant e) in
      let currentName := cleanName (merchant n) in
      prevName = currentName
      \/ Contains prevName currentName
      \/ Contains currentName prevName)
  /\ absDiffBelow (amount e) (amount n) tenDollars = true
  /\ exists de dn,
       newDate (date e) = Some de /\ newDate (date n) = Some dn
       /\ getMonth de <> getMonth dn.

(** Every date of [l] denotes a timestamp in the runtime at hand (the data
    model's standing assumption on the [date] field). *)
Definition datesValid (newDate : string -> option JSDate) (l : list Transaction)
  : bool :=
  forallb (fun t => match newDate (date t) with Some _ => true | None => false end) l.

(** The month test as the code decides it, said without the code: the two
    dates parse and have different month indices, or one of them does not
    parse ([getMonth()] is then NaN, which is unequal to every number). *)
Definition MonthTestPasses (newDate : string -> option JSDate)
  (e n : Transaction) : Prop :=
  (exists de dn,
      newDate (date e) = Some de /\ newDate (date n) = Some dn
      /\ getMonth de <> getMonth dn)
  \/ newDate (date e) = None
  \/ newDate (date n) = None.

(** The search condition with that month test: existing [e] makes the
    classifier upgrade incoming [n]. *)
Definition RecurrenceMatch (newDate : string -> option JSDate)
  (n e : Transaction) : Prop :=
  type e <> income
  /\ (let prevName := cleanName (merchant e) in
      let currentName := cleanName (merchant n) in
      prevName = currentName
      \/ Contains prevName currentName
      \/ Contains currentName prevName)
  /\ absDiffBelow (amount e) (amount n) tenDollars = true
  /\ MonthTestPasses newDate e n.

(** Record [t] is what an import makes of parsed item [item]: each field is
    the item's when the item has it (a non-empty string, a number other than
    0 and NaN, a type), and otherwise a generated id, a reading of the clock,
    [Unknown], [0], [spending] and [Other]. *)
Definition ImportedFrom (uuidv4 nowISOString : nat -> string)
  (item : ParsedItem) (t : Transaction) : Prop :=
  match item_id item with
  | Some (String c r) => id t = String c r
  | _ => exists k, id t = uuidv4 k
  end
  /\ match item_date item with
     | Some (String c r) => date t = String c r
     | _ => exists k, date t = nowISOString k
     end
  /\ match item_merchant item with
     | Some (String c r) => merchant t = String c r
     | _ => merchant t = "Unknown"
     end
  /\ match item_amount item with
     | Some v => if is_nan v || is_zero v then amount t = 0%float else amount t = v
     | None => amount t = 0%float
     end
  /\ match item_type item with
     | Some ty => type t = ty
     | None => type t = spending
     end
  /\ match item_category item with
     | Some (String c r) => category t = String c r
     | _ => category t = "Other"
     end.

(** [out] is a subsequence of [l]: elements of [l], in the order of [l]. *)
Inductive Subseq {A : Type} : list A -> list A -> Prop :=
| Subseq_nil : Subseq [] []
| Subseq_skip x out l : Subseq out l -> Subseq out (x :: l)
| Subseq_keep x out l : Subseq out l -> Subseq (x :: out) (x :: l).

(** [r] is [s] with the first occurrence of [pat] cut out, wherever it
    starts; [s] itself when [pat] does not occur. *)
Inductive FirstCut (pat : string) : string -> string -> Prop :=
| FirstCut_absent s : ~ Contains s pat -> FirstCut pat s s
| FirstCut_found a b :
    (forall a1 a2, a = a1 ++ a2 -> a2 <> "" -> stripPrefix pat (a2 ++ pat ++ b) = None) ->
    FirstCut pat (a ++ pat ++ b) (a ++ b).

(** The normalization as the design words it: lower-case, strip at most one
    of the three markers and only as a leading prefix, then trim. *)
Definition cleanName_leading_prefix (name : string) : string :=
  let l := toLowerCase name in
  trim (match stripPrefix "zelle to " l with
        | Some r => r
        | None =>
            match stripPrefix "zelle transfer to " l with
            | Some r => r
            | None =>
                match stripPrefix "transfer to " l with
                | Some r => r
                | None => l
                end
            end
        end).

(** ** A reference runtime for the examples *)

Definition digitValue (c : ascii) : option nat :=
  let n := code c in
  if ((48 <=? n) && (n <=? 57))%nat then Some (n - 48) else None.

Definition isLeapYear (y : nat) : bool :=
  ((y mod 4 =? 0) && negb (y mod 100 =? 0) || (y mod 400 =? 0))%nat.

Definition daysInMonth (y m : nat) : nat :=
  match m with
  | 2 => if isLeapYear y then 29 else 28
  | 4 | 6 | 9 | 11 => 30
  | _ => 31
  end.

Definition twoDigits (a b : ascii) : option nat :=
  match digitValue a, digitValue b with
  | Some x, Some y => Some (10 * x + y)%nat
  | _, _ => None
  end.

(** The date part [YYYY-MM-DD]. *)
Definition isoDatePart (s : string) : option JSDate :=
  match s with
  | String y1 (String y2 (String y3 (String y4 (String "-"
      (String m1 (String m2 (String "-" (String d1 (String d2 EmptyString))))))))) =>
      match twoDigits y1 y2, twoDigits y3 y4, twoDigits m1 m2, twoDigits d1 d2 with
      | Some yh, Some yl, Some m, Some dd =>
          let y := (100 * yh + yl)%nat in
          if ((1 <=? m) && (m <=? 12) && (1 <=? dd) && (dd <=? daysInMonth y m))%nat
          then Some (mkDate (Z.of_nat y) (m - 1))
          else None
      | _, _, _, _ => None
      end
  | _ => None
  end.

(** The time part [HH:mm:ss.sssZ], as [toISOString] writes it. *)
Definition isoTimePartZ (s : string) : bool :=
  match s with
  | String h1 (String h2 (String ":" (String n1 (String n2 (String ":"
      (String s1 (String s2 (String "."
        (String f1 (String f2 (String f3 (String "Z" EmptyString)))))))))))) =>
      match twoDigits h1 h2, twoDigits n1 n2, twoDigits s1 s2,
            digitValue f1, digitValue f2, digitValue f3 with
      | Some hh, Some mm, Some ss, Some _, Some _, Some _ =>
          ((hh <=? 23) && (mm <=? 59) && (ss <=? 59))%nat
      | _, _, _, _, _, _ => false
      end
  | _ => false
  end.

(** [new Date(s)] in a runtime whose local zone is UTC, on the two ISO forms
    the application writes: the date-only form [YYYY-MM-DD] (midnight UTC of
    that day) and the [toISOString] form [YYYY-MM-DDTHH:mm:ss.sssZ].  In the
    UTC zone the local fields are those written in the string, so
    [getMonth()] is [MM - 1] and [getFullYear()] is [YYYY].  This reference
    runtime recognises no other format (Invalid Date). *)
Definition isoDateUTC (s : string) : option JSDate :=
  match isoDatePart (substring 0 10 s), substring 10 (String.length s - 10) s with
  | Some d, EmptyString => Some d
  | Some d, String "T" t => if isoTimePartZ t then Some d else None
  | _, _ => None
  end.

(** ** Sample records (the design's test scenarios) *)

Definition rentJan : Transaction :=
  mkTransaction "e1" "2024-01-05" "Acme Rent" 1200 flexible_bill "Housing".

Definition rentJan20 : Transaction :=
  mkTransaction "n1" "2024-01-20" "Acme Rent" 1205 spending "Housing".

Definition rentFeb : Transaction :=
  mkTransaction "n2" "2024-02-05" "Acme Rent" 1205 spending "Housing".

Definition rentJan2025 : Transaction :=
  mkTransaction "n3" "2025-01-20" "Acme Rent" 1205 spending "Housing".

Definition rentDec2023 : Transaction :=
  mkTransaction "e2" "2023-12-05" "Acme Rent" 1200 flexible_bill "Housing".

Definition payFeb : Transaction :=
  mkTransaction "n4" "2024-02-05" "Acme Rent" 1200 income "Income".

Definition johnJan : Transaction :=
  mkTransaction "e3" "2024-01-01" "John Doe" 500 flexible_bill "Other".

Definition zelleFeb : Transaction :=
  mkTransaction "n5" "2024-02-01" "Zelle to John Doe" 502 spending "Other".

(** The amount is the number the literal [15.99] denotes. *)
Definition netflix : Transaction :=
  mkTransaction "n6" "2024-03-01" "Netflix" 0x1.ffae147ae147bp+3 spending "Entertainment".

(** [netflix] as a later import spells it: another id, merchant case and
    padding, and a time of day. *)
Definition netflixAgain : Transaction :=
  mkTransaction "n7" "2024-03-01T09:30:00.000Z" "  NETFLIX " 0x1.ffae147ae147bp+3
    spending "Entertainment".

(** A stored record whose date is not a date, and a later charge of the
    same merchant and amount. *)
Definition gymUndated : Transaction :=
  mkTransaction "e4" "n/a" "Gym" 30 spending "Health & Fitness".

Definition gymMarch : Transaction :=
  mkTransaction "n8" "2024-03-01" "Gym" 30 spending "Health & Fitness".

(** A paystub as the analysis returns it, without a date; an id generator
    and a clock for the examples. *)
Definition acmePaystub : PaystubResult :=
  mkPaystub (Some "Acme Corp") (Some 2500%float) None.

Definition sampleUuid (k : nat) : string :=
  "id-" ++ DecimalString.NilZero.string_of_uint (Nat.to_uint k).

Definition sampleClock (k : nat) : string := "2024-06-14T08:00:00.000Z".

(** * Properties *)

(** ** Strings *)

Lemma stripPrefix_Some p : forall s r, stripPrefix p s = Some r <-> s = p ++ r.
Proof.
  induction p as [|a p IH]; intros s r; simpl.
  - split; [intros [= ->]; reflexivity | intros ->; reflexivity].
  - destruct s as [|b s].
    + split; discriminate.
    + destruct (Ascii.eqb_spec a b) as [->|Hne].
      * rewrite IH. split; [intros ->; reflexivity | intros [= ->]; reflexivity].
      * split; [discriminate | intros [= E _]; congruence].
Qed.

Lemma app_assoc_s (a b c : string) : (a ++ b) ++ c = a ++ b ++ c.
Proof. induction a as [|x a IH]; simpl; [reflexivity | now rewrite IH]. Qed.

Lemma includes_Contains s : forall sub, includes s sub = true <-> Contains s sub.
Proof.
  induction s as [|c s IH]; intros sub; simpl.
  - destruct (stripPrefix sub "") as [r|] eqn:E.
    + apply stripPrefix_Some in E. split; [intros _ | reflexivity].
      exists "", r. exact E.
    + split; [discriminate|]. intros (a & b & Hab).
      destruct a; [|discriminate]. simpl in Hab.
      apply stripPrefix_Some in Hab. congruence.
  - destruct (stripPrefix sub (String c s)) as [r|] eqn:E.
    + apply stripPrefix_Some in E. split; [intros _ | reflexivity].
      exists "", r. exact E.
    + rewrite IH. split.
      * intros (a & b & ->). exists (String c a), b. reflexivity.
      * intros (a & b & Hab). destruct a as [|x a].
        -- simpl in Hab. apply stripPrefix_Some in Hab. congruence.
        -- simpl in Hab. injection Hab as _ ->. exists a, b. reflexivity.
Qed.

Lemma replace_FirstCut pat : forall s, FirstCut pat s (replace pat "" s).
Proof.
  induction s as [|c s IH]; simpl.
  - destruct (stripPrefix pat "") as [r|] eqn:E.
    + apply stripPrefix_Some in E.
      change (FirstCut pat "" ("" ++ r)). rewrite E at 1.
      apply (FirstCut_found pat "" r). intros a1 a2 H12 Hne.
      destruct a1; [simpl in H12; congruence | discriminate].
    + apply FirstCut_absent. intros HC. apply includes_Contains in HC.
      simpl in HC. rewrite E in HC. discriminate.
  - destruct (stripPrefix pat (String c s)) as [r|] eqn:E.
    + apply stripPrefix_Some in E.
      change (FirstCut pat (String c s) ("" ++ r)). rewrite E.
      apply (FirstCut_found pat "" r). intros a1 a2 H12 Hne.
      destruct a1; [simpl in H12; congruence | discriminate].
    + remember (replace pat "" s) as r eqn:Hr. clear Hr.
      destruct IH as [s Habs | a b Hfirst].
      * apply FirstCut_absent. intros HC.
        apply includes_Contains in HC. simpl in HC. rewrite E in HC.
        apply includes_Contains in HC. contradiction.
      * change (FirstCut pat (String c a ++ pat ++ b) (String c a ++ b)).
        apply (FirstCut_found pat (String c a) b).
        intros a1 a2 H12 Hne. destruct a1 as [|x a1].
        -- simpl in H12. subst a2. exact E.
        -- simpl in H12. injection H12 as _ H12. eapply Hfirst; eauto.
Qed.

Lemma replace_absent pat : forall s, ~ Contains s pat -> replace pat "" s = s.
Proof.
  induction s as [|c s IH]; intros Habs; simpl.
  - destruct (stripPrefix pat "") as [r|] eqn:E; [|reflexivity].
    exfalso. apply Habs, includes_Contains. simpl. now rewrite E.
  - destruct (stripPrefix pat (String c s)) as [r|] eqn:E.
    + exfalso. apply Habs, includes_Contains. simpl. now rewrite E.
    + rewrite IH; [reflexivity|]. intros HC. apply Habs.
      apply includes_Contains. simpl. rewrite E. now apply includes_Contains.
Qed.

Lemma stripPrefix_self pat b : stripPrefix pat (pat ++ b) = Some b.
Proof. now apply stripPrefix_Some. Qed.

Lemma replace_at_start pat s r : stripPrefix pat s = Some r -> replace pat "" s = r.
Proof. intros E. destruct s; simpl; rewrite E; reflexivity. Qed.

Lemma replace_skip pat c s :
  stripPrefix pat (String c s) = None ->
  replace pat "" (String c s) = String c (replace pat "" s).
Proof. intros E. simpl. now rewrite E. Qed.

Lemma replace_found pat b : forall a,
  (forall a1 a2, a = a1 ++ a2 -> a2 <> "" -> stripPrefix pat (a2 ++ pat ++ b) = None) ->
  replace pat "" (a ++ pat ++ b) = a ++ b.
Proof.
  induction a as [|c a IH]; intros Hfirst.
  - cbn [append]. apply replace_at_start, stripPrefix_self.
  - change (String c a ++ pat ++ b) with (String c (a ++ pat ++ b)).
    rewrite replace_skip by (apply (Hfirst "" (String c a) eq_refl); discriminate).
    cbn [append]. f_equal. apply IH.
    intros a1 a2 -> Hne. now apply (Hfirst (String c a1) a2).
Qed.

(** [FirstCut] is exactly what [replace _ ""] computes. *)
Lemma FirstCut_replace pat s r : FirstCut pat s r <-> r = replace pat "" s.
Proof.
  split.
  - intros [s' Habs | a b Hfirst].
    + symmetry. now apply replace_absent.
    + symmetry. now apply replace_found.
  - intros ->. apply replace_FirstCut.
Qed.

(** The time of day is dropped and a date-only string is kept whole: the
    date part of an ISO timestamp holds no [T]. *)
Lemma calendarDay_drops_time (d rest : string) :
  includes d "T" = false ->
  calendarDay (d ++ String "T" rest) = d /\ calendarDay d = d.
Proof.
  unfold calendarDay. induction d as [|c d IH]; intros Hd; [now split|].
  cbn [includes stripPrefix] in Hd. cbn [append splitHead].
  destruct (Ascii.eqb_spec "T"%char c) as [<-|Hc]; [discriminate|].
  destruct (Ascii.eqb_spec c "T"%char) as [->|_]; [congruence|].
  destruct (IH Hd) as [E1 E2]. now rewrite E1, E2.
Qed.

Lemma Contains_suffix (s a pat : string) : Contains s (a ++ pat) -> Contains s pat.
Proof.
  intros (x & y & ->). exists (x ++ a), y.
  now rewrite !app_assoc_s.
Qed.

(** A name that holds none of the markers is only lower-cased and trimmed
    (["zelle transfer to "] ends in ["transfer to "]). *)
Lemma cleanName_no_marker (s : string) :
  ~ Contains (toLowerCase s) "zelle to " ->
  ~ Contains (toLowerCase s) "transfer to " ->
  cleanName s = trim (toLowerCase s)
  /\ cleanName_leading_prefix s = trim (toLowerCase s).
Proof.
  intros Hz Ht.
  assert (Hzt : ~ Contains (toLowerCase s) "zelle transfer to ")
    by (intros HC; apply Ht, (Contains_suffix _ "zelle "), HC).
  split.
  - unfold cleanName.
    now rewrite (replace_absent _ _ Hz), (replace_absent _ _ Hzt), (replace_absent _ _ Ht).
  - unfold cleanName_leading_prefix.
    destruct (stripPrefix "zelle to " (toLowerCase s)) as [r|] eqn:E1.
    { apply stripPrefix_Some in E1. exfalso. apply Hz. exists "", r. exact E1. }
    destruct (stripPrefix "zelle transfer to " (toLowerCase s)) as [r|] eqn:E2.
    { apply stripPrefix_Some in E2. exfalso. apply Hzt. exists "", r. exact E2. }
    destruct (stripPrefix "transfer to " (toLowerCase s)) as [r|] eqn:E3.
    { apply stripPrefix_Some in E3. exfalso. apply Ht. exists "", r. exact E3. }
    reflexivity.
Qed.

(** ** Numbers *)

Lemma SFabs_binary_round prec emax m e :
  SFabs (binary_round prec emax true m e) = SFabs (binary_round prec emax false m e).
Proof.
  unfold binary_round, binary_round_aux.
  destruct (shl_align m e _) as [mz ez].
  destruct (shr_fexp prec emax (Z.pos mz) ez loc_Exact) as [mrs' e'].
  destruct (shr_fexp prec emax _ e' loc_Exact) as [mrs'' e''].
  destruct (shr_m mrs''); try reflexivity.
  destruct (e'' <=? emax - prec)%Z; reflexivity.
Qed.

Lemma SFabs_binary_normalize_opp prec emax m e :
  SFabs (binary_normalize prec emax (- m) e false)
  = SFabs (binary_normalize prec emax m e false).
Proof.
  destruct m as [|p|p]; simpl; [reflexivity | | symmetry];
    apply SFabs_binary_round.
Qed.

Lemma SFabs_SFsub_sym prec emax x y :
  SFabs (SFsub prec emax x y) = SFabs (SFsub prec emax y x).
Proof.
  destruct x as [sx| sx| |sx mx ex], y as [sy| sy| |sy my ey];
    try reflexivity;
    try (destruct sx, sy; reflexivity);
    try (destruct sx; reflexivity); try (destruct sy; reflexivity).
  unfold SFsub. rewrite (Z.min_comm ey ex).
  rewrite <- SFabs_binary_normalize_opp. f_equal. f_equal. lia.
Qed.

(** [Math.abs(a - b)] and [Math.abs(b - a)] are the same number. *)
Lemma abs_sub_sym (a b : float) :
  PrimFloat.abs (PrimFloat.sub a b) = PrimFloat.abs (PrimFloat.sub b a).
Proof.
  apply Prim2SF_inj. rewrite !abs_spec, !sub_spec. apply SFabs_SFsub_sym.
Qed.

Lemma absDiffBelow_sym a b bound : absDiffBelow a b bound = absDiffBelow b a bound.
Proof. unfold absDiffBelow. now rewrite abs_sub_sym. Qed.

(** ** Lists *)

Lemma filter_idem {A} (f : A -> bool) (l : list A) : filter f (filter f l) = filter f l.
Proof.
  induction l as [|x l IH]; simpl; [reflexivity|].
  destruct (f x) eqn:E; simpl; [rewrite E, IH|]; auto.
Qed.

Lemma filter_Subseq {A} (f : A -> bool) (l : list A) : Subseq (filter f l) l.
Proof.
  induction l as [|x l IH]; simpl; [constructor|].
  destruct (f x); now constructor.
Qed.

Lemma Subseq_In {A} (out l : list A) : Subseq out l -> forall x, In x out -> In x l.
Proof.
  induction 1 as [|y out l _ IH|y out l _ IH]; intros x Hx; simpl in *; auto.
  destruct Hx; auto.
Qed.

(** ** The match rules decide the design's predicates *)



Lemma isIncome_true t : isIncome t = true <-> t = income.
Proof. destruct t; simpl; split; congruence. Qed.

Section AppFacts.

Variable newDate : string -> option JSDate.

Lemma differentMonth_parsed e n de dn :
  newDate (date e) = Some de -> newDate (date n) = Some dn ->
  differentMonth newDate e n = negb (getMonth de =? getMonth dn)%nat.
Proof. intros He Hn. unfold differentMonth. now rewrite He, Hn. Qed.

(** An unparsable date on either side makes the month test succeed:
    [NaN !== m] holds for every [m]. *)
Lemma differentMonth_invalid e n :
  newDate (date e) = None \/ newDate (date n) = None ->
  differentMonth newDate e n = true.
Proof.
  unfold differentMonth. intros [-> | ->]; simpl; [reflexivity|].
  now destruct (monthNumber _).
Qed.

Lemma isEvidence_RecurrenceEvidence n e :
  newDate (date n) <> None -> newDate (date e) <> None ->
  isEvidence newDate n e = true <-> RecurrenceEvidence newDate n e.
Proof.
  intros Hn He.
  destruct (newDate (date n)) as [dn|] eqn:En; [|congruence].
  destruct (newDate (date e)) as [de|] eqn:Ee; [|congruence].
  unfold isEvidence, RecurrenceEvidence. cbv zeta.
  rewrite (differentMonth_parsed e n de dn Ee En), En, Ee.
  destruct (isIncome (type e)) eqn:Ei.
  - apply isIncome_true in Ei. split; [discriminate | intros [Hne _]; congruence].
  - assert (Hty : type e <> income)
      by (intros Hc; apply isIncome_true in Hc; congruence).
    unfold strictEq.
    rewrite !andb_true_iff, !orb_true_iff, String.eqb_eq, !includes_Contains,
      negb_true_iff, Nat.eqb_neq.
    split.
    + intros [[Hname Ham] Hm]. repeat split; auto.
      * tauto.
      * exists de, dn. auto.
    + intros (_ & Hname & Ham & de' & dn' & [= <-] & [= <-] & Hm). tauto.
Qed.

Lemma datesValid_In l t :
  datesValid newDate l = true -> In t l -> newDate (date t) <> None.
Proof.
  unfold datesValid. rewrite forallb_forall. intros Hall Hin.
  specialize (Hall t Hin). now destruct (newDate (date t)).
Qed.

Lemma isRecurring_exists prev n :
  datesValid newDate (n :: prev) = true ->
  isRecurring newDate prev n = true
  <-> exists e, In e prev /\ RecurrenceEvidence newDate n e.
Proof.
  intros Hv. unfold isRecurring. rewrite existsb_exists.
  assert (Hn : newDate (date n) <> None)
    by (apply (datesValid_In _ _ Hv); now left).
  split; intros (e & He & Hd); exists e; split; auto;
    apply isEvidence_RecurrenceEvidence; auto;
    apply (datesValid_In _ _ Hv); now right.
Qed.

Lemma classify_cases prev tx :
  classify newDate prev tx =
    if isIncome (type tx) then tx
    else if isRecurring newDate prev tx then withType tx fixed_bill else tx.
Proof.
  unfold classify.
  now destruct (isIncome (type tx)), (isRecurring newDate prev tx),
    (isFixedBill (type tx)).
Qed.

End AppFacts.

(** The merge is the Deduplicator followed by the Recurrence Classifier,
    put in front of the history. *)
Lemma addTransactions_pipeline (newDate : string -> option JSDate)
  (B H : list Transaction) :
  addTransactions newDate B H
  = (classifyRecurring newDate H (dedupe H B) ++ H)%list.
Proof. reflexivity. Qed.

(** ** The Deduplicator *)


(** C7. Deduplicating an already deduplicated batch against the same history
    changes nothing. *)
Theorem dedupe_idempotent (H B : list Transaction) :
  dedupe H (dedupe H B) = dedupe H B.
Proof. apply filter_idem. Qed.

(** C8. [dedupe H B] is a subsequence of [B]: its elements all occur in [B],
    in the order [B] has them; the empty batch gives the empty output. *)
Theorem dedupe_subsequence (H B : list Transaction) :
  Subseq (dedupe H B) B
  /\ (forall x, In x (dedupe H B) -> In x B)
  /\ dedupe H [] = [].
Proof.
  assert (Hs : Subseq (dedupe H B) B) by apply filter_Subseq.
  split; [exact Hs|]. split; [|reflexivity]. now apply Subseq_In.
Qed.

(** ** The Recurrence Classifier *)

(** When every date parses, the month test is the inequality of the two
    calendar months, and the classifier sets the type to [fixed_bill] exactly
    when some non-income [e] of the history has a normalized name equal to,
    containing or contained in that of [n], an amount less than 10.00 away
    and another calendar month. *)
Theorem classify_fixed_bill_iff (newDate : string -> option JSDate)
  (H : list Transaction) (n : Transaction) :
  type n <> income ->
  datesValid newDate (n :: H) = true ->
  ((exists e, In e H /\ RecurrenceEvidence newDate n e) ->
     classify newDate H n = withType n fixed_bill)
  /\ (~ (exists e, In e H /\ RecurrenceEvidence newDate n e) ->
     classify newDate H n = n)
  /\ (type (classify newDate H n) = fixed_bill <->
      (exists e, In e H /\ RecurrenceEvidence newDate n e) \/ type n = fixed_bill).
Proof.
  intros Hty Hv. rewrite classify_cases.
  destruct (isIncome (type n)) eqn:Ei; [apply isIncome_true in Ei; contradiction|].
  pose proof (isRecurring_exists newDate H n Hv) as Hrec.
  destruct (isRecurring newDate H n).
  - assert (Hex : exists e, In e H /\ RecurrenceEvidence newDate n e)
      by now apply Hrec.
    repeat split; auto. intros Hno. contradiction.
  - assert (Hno : ~ exists e, In e H /\ RecurrenceEvidence newDate n e)
      by (intros Hex; apply Hrec in Hex; discriminate).
    repeat split; auto.
    + intros Hex. contradiction.
    + intros [Hex | Hfb]; [contradiction | exact Hfb].
Qed.

Lemma classify_fixed_bill_iff_witness :
  classify isoDateUTC [rentJan] rentFeb = withType rentFeb fixed_bill.
Proof.
  apply (classify_fixed_bill_iff isoDateUTC [rentJan] rentFeb).
  - discriminate.
  - reflexivity.
  - exists rentJan. split; [now left|].
    split; [discriminate|]. split; [now left|]. split; [reflexivity|].
    exists (mkDate 2024 0), (mkDate 2024 1). repeat split. discriminate.
Defined.

Lemma differentMonth_MonthTestPasses (newDate : string -> option JSDate)
  (e n : Transaction) :
  differentMonth newDate e n = true <-> MonthTestPasses newDate e n.
Proof.
  unfold differentMonth, MonthTestPasses.
  destruct (newDate (date e)) as [de|], (newDate (date n)) as [dn|]; simpl.
  - rewrite negb_true_iff, Nat.eqb_neq. split.
    + intros Hm. left. now exists de, dn.
    + intros [(de' & dn' & [= <-] & [= <-] & Hm) | [Hc | Hc]];
        [exact Hm | discriminate | discriminate].
  - split; auto.
  - split; auto.
  - split; auto.
Qed.

Lemma isEvidence_RecurrenceMatch (newDate : string -> option JSDate)
  (n e : Transaction) :
  isEvidence newDate n e = true <-> RecurrenceMatch newDate n e.
Proof.
  unfold isEvidence, RecurrenceMatch. cbv zeta.
  rewrite <- differentMonth_MonthTestPasses.
  destruct (isIncome (type e)) eqn:Ei.
  - apply isIncome_true in Ei. split; [discriminate | intros [Hne _]; congruence].
  - assert (Hty : type e <> income)
      by (intros Hc; apply isIncome_true in Hc; congruence).
    unfold strictEq.
    rewrite !andb_true_iff, !orb_true_iff, String.eqb_eq, !includes_Contains.
    tauto.
Qed.

Lemma isRecurring_RecurrenceMatch (newDate : string -> option JSDate)
  (prev : list Transaction) (n : Transaction) :
  isRecurring newDate prev n = true
  <-> exists e, In e prev /\ RecurrenceMatch newDate n e.
Proof.
  unfold isRecurring. rewrite existsb_exists.
  split; intros (e & He & Hd); exists e; split; auto;
    now apply isEvidence_RecurrenceMatch.
Qed.

(** C2 does not hold as worded: a stored record whose date does not parse
    passes the month test, so a charge is upgraded although no record of the
    history has a calendar month other than its own. *)
Lemma classify_upgrades_on_unparsable_date :
  type gymMarch = spending
  /\ classify isoDateUTC [gymUndated] gymMarch = withType gymMarch fixed_bill
  /\ type (classify isoDateUTC [gymUndated] gymMarch) = fixed_bill
  /\ isoDateUTC (date gymUndated) = None
  /\ ~ (exists e, In e [gymUndated] /\ RecurrenceEvidence isoDateUTC gymMarch e).
Proof.
  repeat split.
  intros (e & [<- | []] & _ & _ & _ & de & dn & Hde & _). discriminate.
Qed.

(** C2, amended. For a non-income incoming record [n] the classifier sets
    the type to [fixed_bill] exactly when some non-income [e] of the history
    has a normalized name equal to, containing or contained in that of [n],
    an amount less than 10.00 away, and passes the month test: the two dates
    parse and their months differ, or one of the two dates does not parse.
    With no such [e] the record is returned as provided, so a type already
    [fixed_bill] stays. *)
Theorem classify_fixed_bill_exact (newDate : string -> option JSDate)
  (H : list Transaction) (n : Transaction) :
  type n <> income ->
  ((exists e, In e H /\ RecurrenceMatch newDate n e) ->
     classify newDate H n = withType n fixed_bill)
  /\ (~ (exists e, In e H /\ RecurrenceMatch newDate n e) ->
     classify newDate H n = n)
  /\ (type (classify newDate H n) = fixed_bill <->
      (exists e, In e H /\ RecurrenceMatch newDate n e) \/ type n = fixed_bill).
Proof.
  intros Hty. rewrite classify_cases.
  destruct (isIncome (type n)) eqn:Ei; [apply isIncome_true in Ei; contradiction|].
  pose proof (isRecurring_RecurrenceMatch newDate H n) as Hrec.
  destruct (isRecurring newDate H n).
  - assert (Hex : exists e, In e H /\ RecurrenceMatch newDate n e)
      by now apply Hrec.
    split; [reflexivity|]. split; [intros Hno; contradiction|].
    split; [now left | reflexivity].
  - assert (Hno : ~ exists e, In e H /\ RecurrenceMatch newDate n e)
      by (intros Hex; apply Hrec in Hex; discriminate).
    split; [intros Hex; contradiction|]. split; [reflexivity|].
    split; [now right | intros [Hex | Hfb]; [contradiction | exact Hfb]].
Qed.

Lemma classify_fixed_bill_exact_witness :
  classify isoDateUTC [rentJan] rentFeb = withType rentFeb fixed_bill
  /\ classify isoDateUTC [rentJan] rentJan20 = rentJan20
  /\ classify isoDateUTC [gymUndated] gymMarch = withType gymMarch fixed_bill.
Proof.
  split; [|split].
  - apply (classify_fixed_bill_exact isoDateUTC [rentJan] rentFeb).
    + discriminate.
    + exists rentJan. split; [now left|].
      split; [discriminate|]. split; [now left|]. split; [reflexivity|].
      left. exists (mkDate 2024 0), (mkDate 2024 1). repeat split. discriminate.
  - apply (classify_fixed_bill_exact isoDateUTC [rentJan] rentJan20).
    + discriminate.
    + intros (e & [<- | []] & _ & _ & _ & Hm).
      destruct Hm as [(de & dn & [= <-] & [= <-] & Hne) | [Hc | Hc]];
        [now apply Hne | discriminate | discriminate].
  - apply (classify_fixed_bill_exact isoDateUTC [gymUndated] gymMarch).
    + discriminate.
    + exists gymUndated. split; [now left|].
      split; [discriminate|]. split; [now left|]. split; [reflexivity|].
      right. now left.
Defined.

(** C4. The month test reads the month index alone: for parsed dates it is
    the inequality of the two [getMonth()] values whatever the two years are,
    so the same month of different years is not another month (and the
    existing record is then no evidence), while different month indices pass
    in any pair of years. *)
Theorem differentMonth_ignores_year (newDate : string -> option JSDate)
  (e n : Transaction) (ye yn : Z) (me mn : nat) :
  newDate (date e) = Some (mkDate ye me) ->
  newDate (date n) = Some (mkDate yn mn) ->
  differentMonth newDate e n = negb (me =? mn)%nat
  /\ (me = mn -> ye <> yn ->
      differentMonth newDate e n = false /\ isEvidence newDate n e = false
      /\ classify newDate [e] n = n)
  /\ (me <> mn -> differentMonth newDate e n = true).
Proof.
  intros He Hn.
  pose proof (differentMonth_parsed newDate e n _ _ He Hn) as Hd. simpl in Hd.
  split; [exact Hd|]. split.
  - intros -> _. rewrite Nat.eqb_refl in Hd. simpl in Hd.
    assert (Hev : isEvidence newDate n e = false).
    { unfold isEvidence. cbv zeta. rewrite Hd, andb_false_r. now destruct (isIncome _). }
    repeat split; auto.
    rewrite classify_cases. unfold isRecurring. simpl. rewrite Hev. simpl.
    now destruct (isIncome (type n)).
  - intros Hne. rewrite Hd. apply negb_true_iff. now apply Nat.eqb_neq.
Qed.

Lemma differentMonth_ignores_year_witness :
  (differentMonth isoDateUTC rentJan rentJan2025 = false
   /\ isEvidence isoDateUTC rentJan2025 rentJan = false
   /\ classify isoDateUTC [rentJan] rentJan2025 = rentJan2025)
  /\ differentMonth isoDateUTC rentDec2023 rentJan2025 = true.
Proof.
  split.
  - apply (differentMonth_ignores_year isoDateUTC rentJan rentJan2025 2024 2025 0 0);
      [reflexivity | reflexivity | reflexivity | lia].
  - apply (differentMonth_ignores_year isoDateUTC rentDec2023 rentJan2025 2023 2025 11 0);
      [reflexivity | reflexivity | lia].
Defined.

(** C5. An incoming record of type [income] is returned unchanged, whatever
    the history holds. *)
Theorem income_never_reclassified (newDate : string -> option JSDate)
  (H : list Transaction) (n : Transaction) :
  type n = income -> classify newDate H n = n.
Proof. intros Hty. unfold classify. now rewrite Hty. Qed.

Lemma income_never_reclassified_witness :
  classify isoDateUTC [rentJan] payFeb = payFeb.
Proof. apply (income_never_reclassified isoDateUTC [rentJan] payFeb). reflexivity. Defined.

(** C6. Each output record of the classifier agrees with the input record at
    the same position on [id], [date], [merchant], [amount] and [category]:
    only [type] may differ. *)
Theorem classify_changes_type_only (newDate : string -> option JSDate)
  (H B : list Transaction) :
  Forall2 (fun i o =>
             id o = id i /\ date o = date i /\ merchant o = merchant i
             /\ amount o = amount i /\ category o = category i)
          B (classifyRecurring newDate H B).
Proof.
  unfold classifyRecurring. induction B as [|n B IH]; simpl; constructor; auto.
  rewrite classify_cases.
  destruct (isIncome (type n)), (isRecurring newDate H n); repeat split.
Qed.

(** C3 does not hold as worded: a second marker is removed as well, and so
    is a marker that does not start the string. *)
Lemma cleanName_not_leading_prefix_only :
  (cleanName "Zelle to Transfer to Bob" = "bob"
   /\ cleanName_leading_prefix "Zelle to Transfer to Bob" = "transfer to bob")
  /\ (cleanName "Pay Zelle to Bob" = "pay bob"
      /\ cleanName_leading_prefix "Pay Zelle to Bob" = "pay zelle to bob").
Proof. repeat split; reflexivity. Qed.

(** C3, amended. [cleanName] lower-cases the name, cuts out the first
    occurrence of ["zelle to "] wherever it starts, then the first occurrence
    of ["zelle transfer to "] in what is left, then the first occurrence of
    ["transfer to "] in what is left of that, and trims the result; the three
    intermediate strings are determined by the name. *)
Theorem cleanName_first_occurrences (s : string) :
  (exists r1 r2 r3,
      FirstCut "zelle to " (toLowerCase s) r1
      /\ FirstCut "zelle transfer to " r1 r2
      /\ FirstCut "transfer to " r2 r3
      /\ cleanName s = trim r3)
  /\ (forall r1 r2 r3,
         FirstCut "zelle to " (toLowerCase s) r1 ->
         FirstCut "zelle transfer to " r1 r2 ->
         FirstCut "transfer to " r2 r3 ->
         cleanName s = trim r3).
Proof.
  split.
  - exists (replace "zelle to " "" (toLowerCase s)).
    exists (replace "zelle transfer to " "" (replace "zelle to " "" (toLowerCase s))).
    exists (replace "transfer to " ""
              (replace "zelle transfer to " "" (replace "zelle to " "" (toLowerCase s)))).
    repeat split; apply replace_FirstCut.
  - intros r1 r2 r3 H1 H2 H3.
    apply FirstCut_replace in H1, H2, H3. subst. reflexivity.
Qed.

(** ** Single adds and batches *)

Local Open Scope list_scope.

(** C9. A single add runs neither the duplicate filter nor the classifier:
    the new history is the given record, as given, in front of the previous
    history, whatever that history holds. *)
Theorem addTransaction_verbatim (transaction : Transaction)
  (prev : list Transaction) :
  addTransaction transaction prev = transaction :: prev
  /\ In transaction (addTransaction transaction prev)
  /\ (forall t, In t prev -> In t (addTransaction transaction prev))
  /\ List.length (addTransaction transaction prev) = S (List.length prev).
Proof. unfold addTransaction. simpl. auto. Qed.

(** C10. Each element of a batch is filtered and classified against the
    previous history alone: processing distributes over concatenation of
    batches and is the concatenation of the one-element results, so a record
    that is no duplicate of the history survives next to its own copy, and no
    record of the batch is looked at when another one is classified. *)
Theorem batch_elements_independent (newDate : string -> option JSDate)
  (H B1 B2 : list Transaction) :
  processedNew newDate H (B1 ++ B2)
  = processedNew newDate H B1 ++ processedNew newDate H B2
  /\ addTransactions newDate (B1 ++ B2) H
     = processedNew newDate H B1 ++ processedNew newDate H B2 ++ H
  /\ (forall B,
         processedNew newDate H B
         = flat_map (fun n => if isDuplicate H n then [] else [classify newDate H n]) B)
  /\ (forall n, isDuplicate H n = false ->
         dedupe H [n; n] = [n; n]
         /\ processedNew newDate H [n; n]
            = [classify newDate H n; classify newDate H n]).
Proof.
  assert (Happ : forall X Y, processedNew newDate H (X ++ Y)
                 = processedNew newDate H X ++ processedNew newDate H Y).
  { intros X Y. unfold processedNew, uniqueNew. now rewrite filter_app, map_app. }
  split; [apply Happ|]. split.
  { unfold addTransactions. now rewrite Happ, <- app_assoc. }
  split.
  - induction B as [|n B IH]; [reflexivity|].
    change (n :: B) with ([n] ++ B). rewrite Happ, IH.
    unfold processedNew, uniqueNew. simpl.
    destruct (isDuplicate H n); reflexivity.
  - intros n Hn. unfold processedNew, dedupe, uniqueNew. simpl.
    rewrite Hn. simpl. split; reflexivity.
Qed.

(** ** The design's test scenarios, run *)

Example case_whitespace_insensitive : dedupe [netflix] [netflixAgain] = [].
Proof. reflexivity. Qed.

Example cent_tolerance :
  absDiffBelow 100 0x1.9004189374bc7p+6 cent = true
  /\ absDiffBelow 100 0x1.90147ae147ae1p+6 cent = false.
Proof. split; reflexivity. Qed.

Example same_month_is_no_evidence :
  classifyRecurring isoDateUTC [rentJan] [rentJan20] = [rentJan20].
Proof. reflexivity. Qed.

Example zelle_prefix_matches :
  classifyRecurring isoDateUTC [johnJan] [zelleFeb] = [withType zelleFeb fixed_bill].
Proof. reflexivity. Qed.

Example end_to_end :
  addTransactions isoDateUTC [netflix] [] = [netflix]
  /\ processedNew isoDateUTC [netflix] [netflix] = [].
Proof. split; reflexivity. Qed.

Example single_add_keeps_duplicate :
  addTransaction netflixAgain [netflix] = [netflixAgain; netflix]
  /\ addTransactions isoDateUTC [netflixAgain] [netflix] = [netflix].
Proof. split; reflexivity. Qed.

Example single_add_keeps_type :
  addTransaction rentFeb [rentJan] = [rentFeb; rentJan]
  /\ addTransactions isoDateUTC [rentFeb] [rentJan]
     = [withType rentFeb fixed_bill; rentJan].
Proof. split; reflexivity. Qed.

Example three_markers_removed :
  cleanName "Zelle to Zelle Transfer to Transfer to Bob" = "bob".
Proof. reflexivity. Qed.

(** Two unparsable dates count as different months. *)
Example unparsable_dates_differ :
  differentMonth isoDateUTC
    (mkTransaction "a" "n/a" "Gym" 30 spending "Health & Fitness")
    (mkTransaction "b" "n/a" "Gym" 30 spending "Health & Fitness") = true.
Proof. reflexivity. Qed.

(** * Beyond the merge: edits, deletions, views, exports and imports *)

(** ** Helper facts *)

Lemma strictEq_true a b : strictEq a b = true <-> a = b.
Proof. apply String.eqb_eq. Qed.

Lemma strictEq_false a b : strictEq a b = false <-> a <> b.
Proof. apply String.eqb_neq. Qed.

Lemma update_untouched u l :
  (forall t, In t l -> id t <> id u) -> updateTransaction u l = l.
Proof.
  induction l as [|x l IH]; intros Hl; simpl; [reflexivity|].
  assert (Hx : strictEq (id x) (id u) = false)
    by (apply strictEq_false, Hl; now left).
  rewrite Hx, IH; [reflexivity|]. intros t Ht. apply Hl. now right.
Qed.

Lemma update_ids u l : map id (updateTransaction u l) = map id l.
Proof.
  induction l as [|t l IH]; simpl; [reflexivity|]. rewrite IH. f_equal.
  destruct (strictEq (id t) (id u)) eqn:E; [|reflexivity].
  apply strictEq_true in E. congruence.
Qed.

Lemma update_app u l1 l2 :
  updateTransaction u (l1 ++ l2) = updateTransaction u l1 ++ updateTransaction u l2.
Proof. apply map_app. Qed.

Lemma delete_untouched i l :
  (forall t, In t l -> id t <> i) -> deleteTransaction i l = l.
Proof.
  induction l as [|x l IH]; intros Hl; simpl; [reflexivity|].
  assert (Hx : strictEq (id x) i = false) by (apply strictEq_false, Hl; now left).
  rewrite Hx. simpl. rewrite IH; [reflexivity|]. intros t Ht. apply Hl. now right.
Qed.

Lemma Subseq_refl {A} (l : list A) : Subseq l l.
Proof. induction l; now constructor. Qed.

Lemma Subseq_app {A} (a a' b b' : list A) :
  Subseq a a' -> Subseq b b' -> Subseq (a ++ b) (a' ++ b').
Proof.
  induction 1; intros Hb; simpl;
    [exact Hb | apply Subseq_skip | apply Subseq_keep]; auto.
Qed.

Lemma Subseq_map {A B} (f : A -> B) (a a' : list A) :
  Subseq a a' -> Subseq (map f a) (map f a').
Proof.
  induction 1; simpl; [apply Subseq_nil | apply Subseq_skip | apply Subseq_keep]; auto.
Qed.

Lemma Subseq_NoDup {A} (a a' : list A) : Subseq a a' -> NoDup a' -> NoDup a.
Proof.
  induction 1 as [|x a a' Hs IH|x a a' Hs IH]; intros Hn.
  - exact Hn.
  - inversion Hn; auto.
  - inversion Hn as [|y l Hx Hl]; subst. constructor; auto.
    intros Hin. apply Hx. eapply Subseq_In; eauto.
Qed.

(** ** App.tsx: [updateTransaction] and [deleteTransaction] *)

(** X1. An edit never adds, removes, reorders or re-identifies a record:
    the list of ids, position by position, is what it was. *)
Theorem updateTransaction_keeps_ids (updatedTx : Transaction)
  (prev : list Transaction) :
  map id (updateTransaction updatedTx prev) = map id prev
  /\ List.length (updateTransaction updatedTx prev) = List.length prev.
Proof.
  split; [apply update_ids | apply length_map].
Qed.

(** X2. Saving a record whose id no stored record has changes nothing: the
    record is not inserted. *)
Theorem updateTransaction_unknown_id (updatedTx : Transaction)
  (prev : list Transaction) :
  (forall t, In t prev -> id t <> id updatedTx) ->
  updateTransaction updatedTx prev = prev
  /\ ~ In updatedTx (updateTransaction updatedTx prev).
Proof.
  intros Hl. rewrite (update_untouched _ _ Hl). split; [reflexivity|].
  intros Hin. now apply (Hl _ Hin).
Qed.

Lemma updateTransaction_unknown_id_witness :
  updateTransaction payFeb [rentJan; rentDec2023] = [rentJan; rentDec2023].
Proof.
  apply (updateTransaction_unknown_id payFeb [rentJan; rentDec2023]).
  intros t [<- | [<- | []]]; discriminate.
Defined.

(** X3. With unique ids, saving an edit replaces the one record of that id
    where it stands and leaves every other record alone. *)
Theorem updateTransaction_replaces_in_place (updatedTx old : Transaction)
  (l1 l2 : list Transaction) :
  id old = id updatedTx ->
  NoDup (map id (l1 ++ old :: l2)) ->
  updateTransaction updatedTx (l1 ++ old :: l2) = (l1 ++ updatedTx :: l2)%list.
Proof.
  intros Hid Hnd. rewrite update_app. simpl.
  rewrite map_app in Hnd. simpl in Hnd.
  assert (Hout : forall t, In t l1 \/ In t l2 -> id t <> id updatedTx).
  { intros t Ht Heq. apply NoDup_remove_2 in Hnd. apply Hnd.
    rewrite <- Hid in Heq. rewrite <- Heq. apply in_or_app.
    destruct Ht; [left | right]; now apply in_map. }
  rewrite !update_untouched by (intros t Ht; apply Hout; auto).
  assert (E : strictEq (id old) (id updatedTx) = true) by now apply strictEq_true.
  now rewrite E.
Qed.

Lemma updateTransaction_replaces_in_place_witness :
  updateTransaction (withType rentFeb fixed_bill) [rentJan; rentFeb; payFeb]
  = [rentJan; withType rentFeb fixed_bill; payFeb].
Proof.
  apply (updateTransaction_replaces_in_place
           (withType rentFeb fixed_bill) rentFeb [rentJan] [payFeb]).
  - reflexivity.
  - repeat constructor; simpl; intuition discriminate.
Defined.

(** X4. The last save wins: an edit of a record followed by another edit of
    the same id leaves what the second edit alone would leave; saving the
    same edit twice is saving it once. *)
Theorem updateTransaction_last_write_wins (first second : Transaction)
  (prev : list Transaction) :
  id first = id second ->
  updateTransaction second (updateTransaction first prev)
  = updateTransaction second prev.
Proof.
  intros Hid. unfold updateTransaction. rewrite map_map. apply map_ext.
  intros t. rewrite Hid.
  destruct (strictEq (id t) (id second)) eqn:E; [|now rewrite E].
  assert (E' : strictEq (id first) (id second) = true) by now apply strictEq_true.
  now rewrite E'.
Qed.

Lemma updateTransaction_last_write_wins_witness :
  updateTransaction (withType rentFeb fixed_bill)
    (updateTransaction (withType rentFeb flexible_bill) [rentJan; rentFeb])
  = updateTransaction (withType rentFeb fixed_bill) [rentJan; rentFeb].
Proof.
  apply (updateTransaction_last_write_wins
           (withType rentFeb flexible_bill) (withType rentFeb fixed_bill)).
  reflexivity.
Defined.

(** X5. A deletion removes every record of the given id and nothing else;
    the records that stay keep their order. *)
Theorem deleteTransaction_removes_exactly (id0 : string) (prev : list Transaction) :
  (forall t, In t (deleteTransaction id0 prev) <-> In t prev /\ id t <> id0)
  /\ Subseq (deleteTransaction id0 prev) prev.
Proof.
  split; [|apply filter_Subseq].
  intros t. unfold deleteTransaction.
  rewrite filter_In, negb_true_iff, strictEq_false. reflexivity.
Qed.

(** X6. Deletions commute, and deleting an id twice is deleting it once. *)
Theorem deleteTransaction_commutes (i j : string) (prev : list Transaction) :
  deleteTransaction i (deleteTransaction j prev)
  = deleteTransaction j (deleteTransaction i prev)
  /\ deleteTransaction i (deleteTransaction i prev) = deleteTransaction i prev.
Proof.
  split; [|apply filter_idem].
  unfold deleteTransaction. induction prev as [|t prev IH]; simpl; [reflexivity|].
  destruct (strictEq (id t) j) eqn:Ej, (strictEq (id t) i) eqn:Ei; simpl;
    rewrite ?Ej, ?Ei; simpl; now rewrite ?IH.
Qed.

(** X7. Adding a record and deleting its id again drops the record together
    with every older record of that id; when the id was new, the history is
    back to what it was. *)
Theorem add_then_delete (transaction : Transaction) (prev : list Transaction) :
  deleteTransaction (id transaction) (addTransaction transaction prev)
  = deleteTransaction (id transaction) prev
  /\ ((forall t, In t prev -> id t <> id transaction) ->
      deleteTransaction (id transaction) (addTransaction transaction prev) = prev).
Proof.
  assert (E : deleteTransaction (id transaction) (addTransaction transaction prev)
              = deleteTransaction (id transaction) prev).
  { unfold addTransaction, deleteTransaction. simpl.
    assert (Ht : strictEq (id transaction) (id transaction) = true)
      by now apply strictEq_true.
    now rewrite Ht. }
  split; [exact E|]. intros Hnew. rewrite E. now apply delete_untouched.
Qed.

(** X8. Deleting a record right after editing it leaves what deleting it
    without the edit leaves. *)
Theorem update_then_delete (updatedTx : Transaction) (prev : list Transaction) :
  deleteTransaction (id updatedTx) (updateTransaction updatedTx prev)
  = deleteTransaction (id updatedTx) prev.
Proof.
  unfold deleteTransaction, updateTransaction.
  induction prev as [|t prev IH]; simpl; [reflexivity|]. rewrite IH.
  destruct (strictEq (id t) (id updatedTx)) eqn:E; simpl; [|now rewrite E].
  assert (Hu : strictEq (id updatedTx) (id updatedTx) = true)
    by now apply strictEq_true.
  now rewrite Hu.
Qed.

(** ** More on the merge of [addTransactions] *)

Lemma Prim2SF_finite (a : float) :
  is_finite a = true ->
  (exists s, Prim2SF a = S754_zero s) \/ (exists s m e, Prim2SF a = S754_finite s m e).
Proof.
  unfold is_finite, is_nan, is_infinity. rewrite !eqb_spec, abs_spec.
  destruct (Prim2SF a) as [s|s| |s m e]; simpl.
  - intros _. left. now exists s.
  - change (Prim2SF infinity) with (S754_infinity false). simpl.
    rewrite orb_true_r. discriminate.
  - discriminate.
  - intros _. right. now exists s, m, e.
Qed.

Lemma SFsub_self_finite (x : spec_float) :
  (exists s, x = S754_zero s) \/ (exists s m e, x = S754_finite s m e) ->
  SF64sub x x = S754_zero false.
Proof.
  intros [[s ->] | (s & m & e & ->)]; unfold SF64sub, SFsub.
  - now destruct s.
  - cbv zeta. now rewrite Z.sub_diag.
Qed.

(** A finite amount is less than 0.01 (and less than 10) away from itself. *)
Lemma absDiffBelow_self (a : float) :
  is_finite a = true ->
  absDiffBelow a a cent = true /\ absDiffBelow a a tenDollars = true.
Proof.
  intros Hf. unfold absDiffBelow.
  rewrite !ltb_spec, abs_spec, sub_spec, (SFsub_self_finite _ (Prim2SF_finite a Hf)).
  split; reflexivity.
Qed.

Lemma SFeqb_refl_not_nan (x : spec_float) : x <> S754_nan -> SFeqb x x = true.
Proof.
  unfold SFeqb. destruct x as [s|s| |s m e]; simpl; intros Hx;
    try reflexivity; try (now destruct s); try congruence.
  rewrite Z.compare_refl, Pos.compare_cont_refl. now destruct s.
Qed.

Lemma Prim2SF_nan (a : float) : is_nan a = true -> Prim2SF a = S754_nan.
Proof.
  unfold is_nan. rewrite eqb_spec, negb_true_iff. intros Hne.
  destruct (Prim2SF a) as [s|s| |s m e] eqn:E; try reflexivity;
    rewrite SFeqb_refl_not_nan in Hne by discriminate; discriminate.
Qed.

(** NaN is not within any bound of anything. *)
Lemma absDiffBelow_nan (a b bound : float) :
  is_nan a = true \/ is_nan b = true -> absDiffBelow a b bound = false.
Proof.
  intros H. unfold absDiffBelow. rewrite ltb_spec, abs_spec, sub_spec.
  destruct H as [H | H]; apply Prim2SF_nan in H; rewrite H.
  - reflexivity.
  - now destruct (Prim2SF a).
Qed.

Lemma strictEq_sym a b : strictEq a b = strictEq b a.
Proof. apply String.eqb_sym. Qed.

Lemma isDuplicate_app H1 H2 n :
  isDuplicate (H1 ++ H2) n = isDuplicate H1 n || isDuplicate H2 n.
Proof. apply existsb_app. Qed.

Lemma uniqueNew_all_duplicates H B :
  (forall n, In n B -> isDuplicate H n = true) -> uniqueNew H B = [].
Proof.
  induction B as [|n B IH]; intros Hall; simpl; [reflexivity|].
  rewrite (Hall n) by now left. simpl. apply IH. intros m Hm. apply Hall. now right.
Qed.

Lemma uniqueNew_empty_history B : uniqueNew [] B = B.
Proof. induction B as [|n B IH]; simpl; [reflexivity | now rewrite IH]. Qed.

Section MergeFacts.

Variable newDate : string -> option JSDate.

Lemma classify_keeps_key H n :
  id (classify newDate H n) = id n
  /\ date (classify newDate H n) = date n
  /\ merchant (classify newDate H n) = merchant n
  /\ amount (classify newDate H n) = amount n.
Proof.
  rewrite classify_cases.
  destruct (isIncome (type n)), (isRecurring newDate H n); repeat split.
Qed.

Lemma isEvidence_ignores_type n t e :
  isEvidence newDate (withType n t) e = isEvidence newDate n e.
Proof. reflexivity. Qed.

Lemma processedNew_ids H B :
  map id (processedNew newDate H B) = map id (uniqueNew H B).
Proof.
  unfold processedNew. rewrite map_map. apply map_ext.
  intros n. apply classify_keeps_key.
Qed.

Lemma classify_empty_history n : classify newDate [] n = n.
Proof. rewrite classify_cases. simpl. now destruct (isIncome (type n)). Qed.

End MergeFacts.

(** X9. Unique ids stay unique: under an edit, under a deletion, under a
    single add of a record whose id is new, and under a merge of a batch
    whose ids are distinct and new. *)
Theorem unique_ids_preserved (newDate : string -> option JSDate) :
  (forall u prev, NoDup (map id prev) -> NoDup (map id (updateTransaction u prev)))
  /\ (forall i prev, NoDup (map id prev) -> NoDup (map id (deleteTransaction i prev)))
  /\ (forall t prev, NoDup (map id prev) -> (forall e, In e prev -> id e <> id t) ->
        NoDup (map id (addTransaction t prev)))
  /\ (forall B prev, NoDup (map id (B ++ prev)) ->
        NoDup (map id (addTransactions newDate B prev))).
Proof.
  repeat split.
  - intros u prev Hn. now rewrite update_ids.
  - intros i prev. apply Subseq_NoDup, Subseq_map, filter_Subseq.
  - intros t prev Hn Hnew. simpl. constructor; [|exact Hn].
    intros Hin. apply in_map_iff in Hin as (e & He & Hin). now apply (Hnew e).
  - intros B prev. unfold addTransactions.
    rewrite !map_app, processedNew_ids.
    apply Subseq_NoDup, Subseq_app; [|apply Subseq_refl].
    apply Subseq_map, filter_Subseq.
Qed.

(** X10. Merging into an empty history stores the batch as it is: nothing
    is dropped and nothing reclassified.  Merging an empty batch changes
    nothing. *)
Theorem addTransactions_empty (newDate : string -> option JSDate)
  (B H : list Transaction) :
  addTransactions newDate B [] = B /\ addTransactions newDate [] H = H.
Proof.
  split; [|reflexivity].
  unfold addTransactions, processedNew. rewrite uniqueNew_empty_history, app_nil_r.
  induction B as [|n B IH]; simpl; [reflexivity|].
  now rewrite classify_empty_history, IH.
Qed.

(** X11. Importing the same batch a second time adds nothing, provided its
    amounts are finite numbers: every record of the batch is by then a
    duplicate of a stored one. *)
Theorem reimport_adds_nothing (newDate : string -> option JSDate)
  (B H : list Transaction) :
  forallb (fun n => is_finite (amount n)) B = true ->
  processedNew newDate (addTransactions newDate B H) B = []
  /\ addTransactions newDate B (addTransactions newDate B H)
     = addTransactions newDate B H.
Proof.
  intros Hfin.
  assert (Hdup : uniqueNew (addTransactions newDate B H) B = []).
  { apply uniqueNew_all_duplicates. intros n Hn.
    unfold addTransactions. rewrite isDuplicate_app.
    destruct (isDuplicate H n) eqn:Eh; [apply orb_true_r|].
    rewrite orb_false_r. unfold isDuplicate. apply existsb_exists.
    exists (classify newDate H n). split.
    - unfold processedNew. apply in_map, filter_In. now rewrite Eh.
    - destruct (classify_keeps_key newDate H n) as (_ & Hd & Hm & Ha).
      unfold isDuplicateOf. rewrite Hd, Hm, Ha.
      rewrite forallb_forall in Hfin.
      rewrite (proj1 (absDiffBelow_self _ (Hfin n Hn))).
      unfold strictEq. now rewrite !String.eqb_refl. }
  unfold addTransactions at 2. unfold processedNew. rewrite Hdup. split; reflexivity.
Qed.

Lemma reimport_adds_nothing_witness :
  addTransactions isoDateUTC [rentFeb; netflix]
    (addTransactions isoDateUTC [rentFeb; netflix] [rentJan])
  = addTransactions isoDateUTC [rentFeb; netflix] [rentJan].
Proof.
  apply (reimport_adds_nothing isoDateUTC [rentFeb; netflix] [rentJan]).
  reflexivity.
Defined.

(** X12. Filtering a batch against two histories put together is filtering
    it against one and then against the other, in either order. *)
Theorem dedupe_split_history (H1 H2 B : list Transaction) :
  dedupe (H1 ++ H2) B = dedupe H1 (dedupe H2 B)
  /\ dedupe H1 (dedupe H2 B) = dedupe H2 (dedupe H1 B).
Proof.
  unfold dedupe, uniqueNew. split.
  - induction B as [|n B IH]; simpl; [reflexivity|].
    rewrite isDuplicate_app, IH.
    destruct (isDuplicate H1 n) eqn:E1, (isDuplicate H2 n) eqn:E2; simpl;
      rewrite ?E1; reflexivity.
  - induction B as [|n B IH]; simpl; [reflexivity|].
    destruct (isDuplicate H1 n) eqn:E1, (isDuplicate H2 n) eqn:E2; simpl;
      rewrite ?E1, ?E2; simpl; now rewrite ?IH.
Qed.

(** X13. The duplicate test is symmetric: it gives the same answer with the
    incoming and the stored record exchanged. *)
Theorem isDuplicateOf_symmetric (a b : Transaction) :
  isDuplicateOf a b = isDuplicateOf b a.
Proof.
  unfold isDuplicateOf.
  now rewrite (strictEq_sym (splitHead "T" (date b))),
    (absDiffBelow_sym (amount b)),
    (strictEq_sym (trim (toLowerCase (merchant b)))).
Qed.

(** X14. Classifying twice is classifying once; the type either stays or
    becomes [fixed_bill]; and a record comes out as [income] exactly when it
    went in as [income]. *)
Theorem classify_idempotent (newDate : string -> option JSDate)
  (H : list Transaction) (n : Transaction) :
  classify newDate H (classify newDate H n) = classify newDate H n
  /\ (type (classify newDate H n) = type n
      \/ type (classify newDate H n) = fixed_bill)
  /\ (type (classify newDate H n) = income <-> type n = income).
Proof.
  rewrite !classify_cases.
  destruct (isIncome (type n)) eqn:Ei.
  - rewrite Ei. repeat split; auto.
  - destruct (isRecurring newDate H n) eqn:Er.
    + change (isRecurring newDate H (withType n fixed_bill))
        with (isRecurring newDate H n).
      rewrite Er. simpl. repeat split; auto; try discriminate.
      intros Hi. apply isIncome_true in Hi. congruence.
    + rewrite Ei, Er. repeat split; auto.
Qed.

(** X15. A record whose amount is NaN matches nothing: it is no duplicate of
    any record, nor any record of it, and it is no recurrence evidence for
    any record; so an incoming record with such an amount is always kept. *)
Theorem nan_amount_matches_nothing (newDate : string -> option JSDate)
  (e : Transaction) :
  is_nan (amount e) = true ->
  forall n,
    isDuplicateOf n e = false /\ isDuplicateOf e n = false
    /\ isEvidence newDate n e = false
    /\ forall H, isDuplicate H e = false.
Proof.
  intros Hnan n.
  assert (Hd : forall x, isDuplicateOf x e = false).
  { intros x. unfold isDuplicateOf.
    rewrite (absDiffBelow_nan (amount e) (amount x)) by now left.
    now rewrite andb_false_r. }
  assert (Hd' : forall x, isDuplicateOf e x = false).
  { intros x. unfold isDuplicateOf.
    rewrite (absDiffBelow_nan (amount x) (amount e)) by now right.
    now rewrite andb_false_r. }
  repeat split; auto.
  - unfold isEvidence. cbv zeta.
    rewrite (absDiffBelow_nan (amount e) (amount n)) by now left.
    rewrite andb_false_r. now destruct (isIncome (type e)).
  - intros H. unfold isDuplicate. induction H as [|x H IH]; simpl; [reflexivity|].
    now rewrite Hd', IH.
Qed.

Lemma nan_amount_matches_nothing_witness :
  isDuplicateOf
    (mkTransaction "x" "2024-03-01" "Netflix" nan spending "Other")
    (mkTransaction "x" "2024-03-01" "Netflix" nan spending "Other") = false.
Proof.
  apply (nan_amount_matches_nothing isoDateUTC
           (mkTransaction "x" "2024-03-01" "Netflix" nan spending "Other")).
  reflexivity.
Defined.

(** ** Dashboard.tsx and ExportData.tsx *)

Lemma strictEqNum_Some {A} (eqb : A -> A -> bool) (a b : option A) :
  strictEqNum eqb a b = true <-> exists x y, a = Some x /\ b = Some y /\ eqb x y = true.
Proof.
  destruct a as [x|], b as [y|]; simpl; split;
    try discriminate; try (intros (x' & y' & Ha & Hb & _); discriminate).
  - intros E. now exists x, y.
  - now intros (x' & y' & [= <-] & [= <-] & E).
Qed.

Section ViewFacts.

Variable newDate : string -> option JSDate.

Lemma inSelectedMonth_true sel t :
  inSelectedMonth newDate sel t = true <->
  exists d s, newDate (date t) = Some d /\ sel = Some s
              /\ getMonth d = getMonth s /\ getFullYear d = getFullYear s.
Proof.
  unfold inSelectedMonth. cbv zeta.
  rewrite andb_true_iff, !strictEqNum_Some. split.
  - intros [(m & m' & Hm & Hm' & Em) (y & y' & Hy & Hy' & Ey)].
    destruct (newDate (date t)) as [d|]; [|discriminate].
    destruct sel as [s|]; [|discriminate].
    simpl in *. injection Hm as <-. injection Hm' as <-.
    injection Hy as <-. injection Hy' as <-.
    exists d, s. repeat split; auto.
    + now apply Nat.eqb_eq.
    + now apply Z.eqb_eq.
  - intros (d & s & -> & -> & Hm & Hy). simpl. split.
    + exists (getMonth d), (getMonth s). repeat split. now apply Nat.eqb_eq.
    + exists (getFullYear d), (getFullYear s). repeat split. now apply Z.eqb_eq.
Qed.

Lemma inSelectedMonth_year sel t :
  inSelectedMonth newDate sel t = true -> inSelectedYear newDate sel t = true.
Proof. unfold inSelectedMonth, inSelectedYear. cbv zeta. now rewrite andb_true_iff. Qed.

Lemma filter_implies_Subseq {A} (f g : A -> bool) (l : list A) :
  (forall x, f x = true -> g x = true) -> Subseq (filter f l) (filter g l).
Proof.
  intros Hfg. induction l as [|x l IH]; simpl; [apply Subseq_nil|].
  destruct (f x) eqn:Ef.
  - rewrite (Hfg x Ef). now apply Subseq_keep.
  - destruct (g x); [apply Subseq_skip|]; exact IH.
Qed.

End ViewFacts.

(** X16. A record is shown in the month view exactly when its date parses
    and has the month index and the year of the selected month: a record
    whose date does not parse is in no month view, and an invalid selection
    shows nothing. *)
Theorem month_view_membership (newDate : string -> option JSDate)
  (selectedMonth : option JSDate) (transactions : list Transaction) :
  (forall t,
      In t (filteredTransactions newDate selectedMonth transactions) <->
      In t transactions
      /\ exists d s, newDate (date t) = Some d /\ selectedMonth = Some s
                     /\ getMonth d = getMonth s /\ getFullYear d = getFullYear s)
  /\ filteredTransactions newDate None transactions = []
  /\ (forall t, newDate (date t) = None ->
        ~ In t (filteredTransactions newDate selectedMonth transactions)).
Proof.
  unfold filteredTransactions. split; [|split].
  - intros t. now rewrite filter_In, inSelectedMonth_true.
  - induction transactions as [|t l IH]; simpl; [reflexivity|].
    unfold inSelectedMonth at 1. simpl.
    now destruct (monthNumber (newDate (date t))).
  - intros t Hnone Hin. apply filter_In in Hin as [_ Hm].
    apply inSelectedMonth_true in Hm as (d & s & Hd & _). congruence.
Qed.

(** X17. The views of two different months share no record: the year counts
    here, so the same month of another year is another view. *)
Theorem month_views_disjoint (newDate : string -> option JSDate)
  (s1 s2 : JSDate) (transactions : list Transaction) :
  getMonth s1 <> getMonth s2 \/ getFullYear s1 <> getFullYear s2 ->
  filteredTransactions newDate (Some s2)
    (filteredTransactions newDate (Some s1) transactions) = [].
Proof.
  intros Hdiff. unfold filteredTransactions.
  induction transactions as [|t l IH]; simpl; [reflexivity|].
  destruct (inSelectedMonth newDate (Some s1) t) eqn:E1; [|exact IH].
  simpl. destruct (inSelectedMonth newDate (Some s2) t) eqn:E2; [|exact IH].
  apply inSelectedMonth_true in E1 as (d & s & Hd & [= <-] & Hm1 & Hy1).
  apply inSelectedMonth_true in E2 as (d' & s' & Hd' & [= <-] & Hm2 & Hy2).
  rewrite Hd in Hd'. injection Hd' as <-.
  destruct Hdiff as [Hm | Hy]; congruence.
Qed.

Lemma month_views_disjoint_witness :
  filteredTransactions isoDateUTC (Some (mkDate 2025 0))
    (filteredTransactions isoDateUTC (Some (mkDate 2024 0))
       [rentJan; rentJan2025; rentFeb]) = [].
Proof.
  apply (month_views_disjoint isoDateUTC (mkDate 2024 0) (mkDate 2025 0)).
  right. discriminate.
Defined.

(** X18. What the month export selects is part of what the year-to-date
    export selects, in the same order; so whenever the month export
    downloads a file, the year-to-date export and the full export download
    one too. *)
Theorem month_export_within_year_export (newDate : string -> option JSDate)
  (selectedMonth : option JSDate) (toLocaleDateString : string -> string)
  (toFixed2 : float -> string) (monthYearLabel : option JSDate -> string)
  (transactions : list Transaction) :
  Subseq (filter (inSelectedMonth newDate selectedMonth) transactions)
         (filter (inSelectedYear newDate selectedMonth) transactions)
  /\ ((exists csv name,
          exportCurrentMonth newDate selectedMonth toLocaleDateString toFixed2
            monthYearLabel transactions = Downloaded csv name) ->
      (exists csv name,
          exportYearToDate newDate selectedMonth toLocaleDateString toFixed2
            transactions = Downloaded csv name)
      /\ (exists csv,
          exportAll toLocaleDateString toFixed2 transactions
          = Downloaded csv "Financial_Advisor_All_History.csv")).
Proof.
  assert (Hsub : Subseq (filter (inSelectedMonth newDate selectedMonth) transactions)
                        (filter (inSelectedYear newDate selectedMonth) transactions))
    by (apply filter_implies_Subseq; intros x; apply inSelectedMonth_year).
  split; [exact Hsub|].
  unfold exportCurrentMonth, exportYearToDate, exportAll. cbv zeta.
  intros (csv & name & Hm).
  destruct (filter (inSelectedMonth newDate selectedMonth) transactions)
    as [|t month] eqn:Em; [discriminate|].
  assert (Hin : In t (filter (inSelectedYear newDate selectedMonth) transactions))
    by (eapply Subseq_In; [exact Hsub | now left]).
  split.
  - destruct (filter (inSelectedYear newDate selectedMonth) transactions);
      [contradiction | eauto].
  - apply filter_In in Hin as [Hin _].
    destruct transactions; [contradiction | eauto].
Qed.

Lemma readQuoted_escapeQuotes (m rest : string) :
  stripPrefix (String dquote EmptyString) rest = None ->
  readQuoted (escapeQuotes m ++ String dquote rest) = Some (m, rest).
Proof.
  intros Hrest. induction m as [|c m IH].
  - cbn [escapeQuotes append readQuoted]. rewrite Ascii.eqb_refl.
    destruct rest as [|c2 r2]; [reflexivity|].
    cbn [stripPrefix] in Hrest. rewrite (Ascii.eqb_sym c2 dquote).
    now destruct (Ascii.eqb dquote c2).
  - cbn [escapeQuotes]. destruct (Ascii.eqb_spec c dquote) as [-> | Hc].
    + cbn [append readQuoted]. rewrite !Ascii.eqb_refl. now rewrite IH.
    + cbn [append readQuoted].
      destruct (Ascii.eqb_spec c dquote) as [|_]; [contradiction|].
      now rewrite IH.
Qed.

(** The doubling of quotes is read back by [readQuoted], and loses nothing:
    two different merchants never give the same escaped text. *)
Theorem merchant_field_reads_back (m : string) :
  (forall rest,
      stripPrefix (String dquote EmptyString) rest = None ->
      readQuoted (escapeQuotes m ++ String dquote rest) = Some (m, rest))
  /\ (forall m', escapeQuotes m' = escapeQuotes m -> m' = m).
Proof.
  split; [intros rest; apply readQuoted_escapeQuotes|].
  intros m' Heq.
  pose proof (readQuoted_escapeQuotes m EmptyString eq_refl) as H1.
  pose proof (readQuoted_escapeQuotes m' EmptyString eq_refl) as H2.
  rewrite Heq, H1 in H2. congruence.
Qed.

(** X19. In every row that [convertToCSV] writes, under the header line, the
    text after the date, the comma and the opening quote reads back, by the
    rule for quoted CSV fields, as exactly the merchant, whatever characters
    the merchant holds (commas, double quotes, line feeds), and the reader
    stops at the comma before the amount. *)
Theorem convertToCSV_merchant_reads_back (toLocaleDateString : string -> string)
  (toFixed2 : float -> string) (data : list Transaction) :
  exists rows,
    convertToCSV toLocaleDateString toFixed2 data
    = String.concat (String lineFeed EmptyString)
        ("Date,Merchant,Amount,Type,Category,ID" :: rows)
    /\ Forall2
         (fun t row =>
            exists afterQuote,
              (row = toLocaleDateString (date t) ++ "," ++ String dquote afterQuote)%string
              /\ readQuoted afterQuote
                 = Some (merchant t,
                         ("," ++ toFixed2 (amount t) ++ "," ++ typeName (type t)
                          ++ "," ++ category t ++ "," ++ id t)%string))
         data rows.
Proof.
  unfold convertToCSV. cbv zeta. rewrite map_map.
  eexists. split; [reflexivity|].
  induction data as [|t data IH]; simpl map; constructor; [|exact IH].
  exists (escapeQuotes (merchant t)
          ++ String dquote ("," ++ toFixed2 (amount t) ++ "," ++ typeName (type t)
                            ++ "," ++ category t ++ "," ++ id t))%string.
  split.
  - cbn [String.concat append]. now rewrite app_assoc_s.
  - apply readQuoted_escapeQuotes. reflexivity.
Qed.

Example merchant_with_quote_and_comma :
  readQuoted (escapeQuotes (String "A" (String dquote (String "," "B")))
              ++ String dquote ",15.99")
  = Some (String "A" (String dquote (String "," "B")), ",15.99").
Proof. reflexivity. Qed.

(** ** SmartImports.tsx *)

Lemma orString_nonempty s fallback : fallback <> "" -> orString s fallback <> "".
Proof. intros Hf. destruct s as [[|c r]|]; simpl; auto; discriminate. Qed.

Lemma orZero_not_nan x : is_nan (orZero x) = false.
Proof.
  unfold orZero, truthyNumber. destruct (is_nan x) eqn:E; simpl; [reflexivity|].
  destruct (is_zero x); simpl; [reflexivity | exact E].
Qed.

Lemma setAt_length {A} (v : A) : forall l i, List.length (setAt i v l) = List.length l.
Proof. induction l as [|x l IH]; intros [|i]; simpl; auto. Qed.

Lemma setAt_other {A} (v : A) : forall l i j, j <> i -> nth_error (setAt i v l) j = nth_error l j.
Proof.
  induction l as [|x l IH]; intros [|i] [|j] Hne; simpl; auto; try congruence.
Qed.

Lemma setAt_same {A} (v : A) : forall l i,
  i < List.length l -> nth_error (setAt i v l) i = Some v.
Proof.
  induction l as [|x l IH]; intros [|i] Hi; simpl in *; try lia; auto.
  apply IH. lia.
Qed.

Lemma setAt_setAt {A} (v v' : A) : forall l i, setAt i v (setAt i v' l) = setAt i v l.
Proof. induction l as [|x l IH]; intros [|i]; simpl; auto. now rewrite IH. Qed.

Lemma setAt_nth {A} : forall (l : list A) i x, nth_error l i = Some x -> setAt i x l = l.
Proof.
  induction l as [|y l IH]; intros [|i] x Hx; simpl in *; try discriminate.
  - now injection Hx as ->.
  - now rewrite (IH i x Hx).
Qed.

Section ImportFacts.

Variable uuidv4 : nat -> string.
Variable nowISOString : nat -> string.
Variable newDate : string -> option JSDate.

Lemma toImport_length items : forall w,
  List.length (fst (toImport uuidv4 nowISOString items w)) = List.length items.
Proof.
  induction items as [|item rest IH]; intros w; simpl; [reflexivity|].
  destruct (toTransaction uuidv4 nowISOString item w) as [t w1].
  specialize (IH w1). destruct (toImport uuidv4 nowISOString rest w1) as [ts w2].
  simpl in *. now rewrite IH.
Qed.

Lemma toImport_Forall (P : Transaction -> Prop) :
  (forall item w, P (fst (toTransaction uuidv4 nowISOString item w))) ->
  forall items w, Forall P (fst (toImport uuidv4 nowISOString items w)).
Proof.
  intros HP. induction items as [|item rest IH]; intros w; simpl; [constructor|].
  pose proof (HP item w) as Ht.
  destruct (toTransaction uuidv4 nowISOString item w) as [t w1].
  specialize (IH w1). destruct (toImport uuidv4 nowISOString rest w1) as [ts w2].
  simpl in *. now constructor.
Qed.

Lemma filter_none {A} (f : A -> bool) (l : list A) :
  forallb (fun x => negb (f x)) l = true -> filter f l = [].
Proof.
  induction l as [|x l IH]; simpl; [reflexivity|].
  rewrite andb_true_iff, negb_true_iff. intros [-> Hl]. auto.
Qed.

Lemma markIncluded_spec results : forall w,
  map item_id (fst (markIncluded uuidv4 results w))
  = map (fun k => Some (uuidv4 k)) (seq (uuidCalls w) (List.length results))
  /\ forallb include (fst (markIncluded uuidv4 results w)) = true
  /\ map (fun r => (item_date r, item_merchant r, item_amount r, item_type r,
                    item_category r))
         (fst (markIncluded uuidv4 results w))
     = map (fun r => (item_date r, item_merchant r, item_amount r, item_type r,
                      item_category r)) results
  /\ snd (markIncluded uuidv4 results w)
     = mkWorld (uuidCalls w + List.length results) (clockReads w).
Proof.
  induction results as [|r rest IH]; intros w; simpl.
  - repeat split. destruct w. simpl. now rewrite Nat.add_0_r.
  - specialize (IH (mkWorld (S (uuidCalls w)) (clockReads w))).
    destruct (markIncluded uuidv4 rest _) as [items w'].
    simpl in *. destruct IH as (Hid & Hinc & Hfields & Hw).
    rewrite Hid, Hinc, Hfields, Hw. repeat split. f_equal. lia.
Qed.

End ImportFacts.

Lemma toTransaction_ImportedFrom (uuidv4 nowISOString : nat -> string)
  (item : ParsedItem) (w : World) :
  ImportedFrom uuidv4 nowISOString item (fst (toTransaction uuidv4 nowISOString item w))
  /\ uuidCalls (snd (toTransaction uuidv4 nowISOString item w))
     = uuidCalls w + (if falsyString (item_id item) then 1 else 0)
  /\ clockReads (snd (toTransaction uuidv4 nowISOString item w))
     = clockReads w + (if falsyString (item_date item) then 1 else 0).
Proof.
  destruct item as [i d m a ty c incl]. unfold toTransaction, ImportedFrom.
  cbn [item_id item_date item_merchant item_amount item_type item_category].
  assert (Hm : match m with
               | Some (String c0 r) => orString m "Unknown" = String c0 r
               | _ => orString m "Unknown" = "Unknown"
               end) by (destruct m as [[|c0 r]|]; reflexivity).
  assert (Hc : match c with
               | Some (String c0 r) => orString c "Other" = String c0 r
               | _ => orString c "Other" = "Other"
               end) by (destruct c as [[|c0 r]|]; reflexivity).
  assert (Ha : match a with
               | Some v => if is_nan v || is_zero v
                           then orZero (toNumber a) = 0%float
                           else orZero (toNumber a) = v
               | None => orZero (toNumber a) = 0%float
               end).
  { destruct a as [v|]; [|reflexivity]. unfold orZero, truthyNumber. simpl.
    now destruct (is_nan v || is_zero v). }
  assert (Hty : match ty with
                | Some t0 => match ty with Some t1 => t1 | None => spending end = t0
                | None => match ty with Some t1 => t1 | None => spending end = spending
                end) by (destruct ty; reflexivity).
  destruct i as [[|ci ri]|], d as [[|cd rd]|]; cbn;
    (split; [repeat split; eauto|]); split; lia.
Qed.

Lemma toImport_ImportedFrom (uuidv4 nowISOString : nat -> string)
  (items : list ParsedItem) : forall w,
  Forall2 (ImportedFrom uuidv4 nowISOString) items
          (fst (toImport uuidv4 nowISOString items w))
  /\ uuidCalls (snd (toImport uuidv4 nowISOString items w))
     = uuidCalls w + List.length (filter (fun it => falsyString (item_id it)) items)
  /\ clockReads (snd (toImport uuidv4 nowISOString items w))
     = clockReads w + List.length (filter (fun it => falsyString (item_date it)) items).
Proof.
  induction items as [|item rest IH]; intros w; cbn [toImport filter].
  - repeat split; [constructor | simpl; lia | simpl; lia].
  - pose proof (toTransaction_ImportedFrom uuidv4 nowISOString item w)
      as (Hitem & Hu & Hk).
    destruct (toTransaction uuidv4 nowISOString item w) as [t w1].
    destruct (IH w1) as (Hrest & Hu' & Hk').
    destruct (toImport uuidv4 nowISOString rest w1) as [ts w2].
    cbn [fst snd] in *. split; [now constructor|].
    rewrite Hu', Hk', Hu, Hk.
    destruct (falsyString (item_id item)), (falsyString (item_date item));
      cbn [List.length]; split; lia.
Qed.

(** X20. Confirming an import hands the merge one record per included item,
    in the order of the list and each made from the item at its position
    (the item's own fields where it has them, the defaults otherwise), and
    none for an excluded item; one id is generated per included item without
    an id and the clock read once per included item without a date; the
    length test before the call changes nothing, the list of parsed items
    is cleared and the import type reset in every case, and with no item
    included the history is left as it was. *)
Theorem confirmImport_merges_included (uuidv4 nowISOString : nat -> string)
  (newDate : string -> option JSDate) (st : SmartImportsState)
  (transactions : list Transaction) (w : World) :
  exists imported w',
    confirmImport uuidv4 nowISOString newDate st transactions w
    = (mkImports None [], addTransactions newDate imported transactions, w')
    /\ Forall2 (ImportedFrom uuidv4 nowISOString)
               (filter include (parsedItems st)) imported
    /\ uuidCalls w'
       = uuidCalls w
         + List.length (filter (fun it => falsyString (item_id it))
                          (filter include (parsedItems st)))
    /\ clockReads w'
       = clockReads w
         + List.length (filter (fun it => falsyString (item_date it))
                          (filter include (parsedItems st)))
    /\ (forallb (fun item => negb (include item)) (parsedItems st) = true ->
        imported = [] /\ addTransactions newDate imported transactions = transactions).
Proof.
  unfold confirmImport.
  pose proof (toImport_ImportedFrom uuidv4 nowISOString
                (filter include (parsedItems st)) w) as (Hall & Hu & Hk).
  destruct (toImport uuidv4 nowISOString (filter include (parsedItems st)) w)
    as [imported w'] eqn:Ei. cbn [fst snd] in *.
  exists imported, w'. split; [|split; [exact Hall | split; [exact Hu | split; [exact Hk|]]]].
  - now destruct imported.
  - intros Hnone. rewrite (filter_none _ _ Hnone) in Hall.
    inversion Hall. split; reflexivity.
Qed.

(** X21. Every record an import hands to the merge has a merchant and a
    category that are not empty and an amount that is a number (never NaN):
    missing or empty fields are replaced by [Unknown], [Other] and [0]. *)
Theorem imported_records_are_complete (uuidv4 nowISOString : nat -> string)
  (items : list ParsedItem) (w : World) :
  Forall (fun t => merchant t <> "" /\ category t <> "" /\ is_nan (amount t) = false)
         (fst (toImport uuidv4 nowISOString items w)).
Proof.
  apply toImport_Forall. intros item w0. unfold toTransaction.
  destruct (item_id item) as [[|c r]|], (item_date item) as [[|c' r']|]; simpl;
    (split; [apply orString_nonempty; discriminate|]);
    (split; [apply orString_nonempty; discriminate | apply orZero_not_nan]).
Qed.

(** X22. An item whose fields are all present (non-empty strings, an amount
    other than zero and NaN) is imported exactly as it is, and neither a new
    id is drawn nor the clock read. *)
Theorem complete_item_imported_verbatim (uuidv4 nowISOString : nat -> string)
  (t : Transaction) (flag : bool) (w : World) :
  id t <> "" -> date t <> "" -> merchant t <> "" -> category t <> "" ->
  truthyNumber (amount t) = true ->
  toTransaction uuidv4 nowISOString
    (mkItem (Some (id t)) (Some (date t)) (Some (merchant t)) (Some (amount t))
            (Some (type t)) (Some (category t)) flag) w
  = (t, w).
Proof.
  intros Hi Hd Hm Hc Ha. unfold toTransaction, orZero. simpl. rewrite Ha.
  destruct t as [i d m a ty c]. simpl in *.
  destruct i; [congruence|]. destruct d; [congruence|].
  destruct m; [congruence|]. destruct c; [congruence|]. reflexivity.
Qed.

Lemma complete_item_imported_verbatim_witness :
  toTransaction (fun _ => "fresh") (fun _ => "2024-06-01T00:00:00.000Z")
    (mkItem (Some (id rentFeb)) (Some (date rentFeb)) (Some (merchant rentFeb))
            (Some (amount rentFeb)) (Some (type rentFeb)) (Some (category rentFeb))
            true) (mkWorld 0 0)
  = (rentFeb, mkWorld 0 0).
Proof.
  apply (complete_item_imported_verbatim (fun _ => "fresh")
           (fun _ => "2024-06-01T00:00:00.000Z") rentFeb true (mkWorld 0 0));
    try discriminate; reflexivity.
Defined.

(** X23. Toggling an item flips only that item's flag, every other item and
    the length of the list stay, and toggling the same item again restores
    the list. *)
Theorem toggleInclude_involutive (index : nat) (items items' : list ParsedItem) :
  toggleInclude index items = Some items' ->
  toggleInclude index items' = Some items
  /\ List.length items' = List.length items
  /\ (forall j, j <> index -> nth_error items' j = nth_error items j)
  /\ option_map include (nth_error items' index)
     = option_map (fun it => negb (include it)) (nth_error items index).
Proof.
  unfold toggleInclude. destruct (nth_error items index) as [it|] eqn:E; [|discriminate].
  intros [= <-].
  assert (Hlt : index < List.length items) by (apply nth_error_Some; congruence).
  rewrite (setAt_same _ items index Hlt). simpl. rewrite negb_involutive, setAt_setAt.
  repeat split.
  - f_equal. apply setAt_nth. rewrite E. now destruct it.
  - apply setAt_length.
  - intros j Hj. now apply setAt_other.
Qed.

Lemma toggleInclude_involutive_witness :
  toggleInclude 0
    [mkItem None None (Some "Netflix") None None None false;
     mkItem None None (Some "Acme Rent") None None None true]
  = Some [mkItem None None (Some "Netflix") None None None true;
          mkItem None None (Some "Acme Rent") None None None true].
Proof.
  apply (toggleInclude_involutive 0
           [mkItem None None (Some "Netflix") None None None true;
            mkItem None None (Some "Acme Rent") None None None true]).
  reflexivity.
Defined.

Lemma filter_all {A} (f : A -> bool) (l : list A) :
  forallb f l = true -> filter f l = l.
Proof.
  induction l as [|x l IH]; simpl; [reflexivity|].
  rewrite andb_true_iff. intros [-> Hl]. now rewrite IH.
Qed.

(** X24. After a statement is analysed every extracted row is an included
    item carrying the next ids of the generator, in order, with its other
    fields as extracted, and the clock is not read; confirmed as it is, the
    list gives the merge one record per row. *)
Theorem statement_rows_all_included (uuidv4 nowISOString : nat -> string)
  (results : list ParsedItem) (st : SmartImportsState) (w : World) :
  let st' := fst (statementAnalyzed uuidv4 results st w) in
  let w' := snd (statementAnalyzed uuidv4 results st w) in
  importType st' = importType st
  /\ map item_id (parsedItems st')
     = map (fun k => Some (uuidv4 k)) (seq (uuidCalls w) (List.length results))
  /\ forallb include (parsedItems st') = true
  /\ map (fun r => (item_date r, item_merchant r, item_amount r, item_type r,
                    item_category r)) (parsedItems st')
     = map (fun r => (item_date r, item_merchant r, item_amount r, item_type r,
                      item_category r)) results
  /\ w' = mkWorld (uuidCalls w + List.length results) (clockReads w)
  /\ List.length
       (fst (toImport uuidv4 nowISOString (filter include (parsedItems st')) w'))
     = List.length results.
Proof.
  cbv zeta. unfold statementAnalyzed.
  pose proof (markIncluded_spec uuidv4 results w) as (Hid & Hinc & Hf & Hw).
  destruct (markIncluded uuidv4 results w) as [mapped w']. simpl in *.
  repeat split; try assumption.
  rewrite (filter_all _ _ Hinc), toImport_length.
  rewrite <- (length_map item_id mapped), Hid, length_map. apply length_seq.
Qed.

(** X25. A paystub with a net pay amount becomes one included item of type
    [income] and category [Income]; confirmed as it is, it reaches the
    history as an [income] record with the amount of the paystub and the
    payer ([Employer] when missing) as merchant, unless it duplicates a
    stored record, in which case the history stays as it was. *)
Theorem paystub_import_is_income (uuidv4 nowISOString : nat -> string)
  (newDate : string -> option JSDate) (r : PaystubResult)
  (st : SmartImportsState) (transactions : list Transaction) (w : World) :
  truthyNumber (toNumber (paystub_amount r)) = true ->
  exists item w1 t w2,
    paystubAnalyzed uuidv4 nowISOString (Some r) st w
    = Some (mkImports (importType st) [item], w1)
    /\ toTransaction uuidv4 nowISOString item w1 = (t, w2)
    /\ type t = income /\ category t = "Income"
    /\ Some (amount t) = paystub_amount r
    /\ merchant t = orString (payer r) "Employer"
    /\ confirmImport uuidv4 nowISOString newDate
         (mkImports (importType st) [item]) transactions w1
       = (mkImports None [],
          if isDuplicate transactions t then transactions else t :: transactions,
          w2).
Proof.
  intros Hamt. unfold paystubAnalyzed. rewrite Hamt.
  destruct (paystub_amount r) as [v|] eqn:Ev; [|discriminate]. simpl in Hamt.
  set (w0 := mkWorld (S (uuidCalls w)) (clockReads w)).
  destruct (match paystub_date r with
            | Some (String c s) => (String c s, w0)
            | _ => (splitHead "T" (nowISOString (clockReads w0)),
                    mkWorld (uuidCalls w0) (S (clockReads w0)))
            end) as [d w1] eqn:Ed.
  set (item := mkItem (Some (uuidv4 (uuidCalls w))) (Some d)
                 (Some (orString (payer r) "Employer")) (Some v) (Some income)
                 (Some "Income") true).
  destruct (toTransaction uuidv4 nowISOString item w1) as [t w2] eqn:Et.
  exists item, w1, t, w2.
  assert (Hfields : type t = income /\ category t = "Income" /\ amount t = v
                    /\ merchant t = orString (payer r) "Employer").
  { unfold toTransaction in Et. subst item. cbn [item_id item_date item_merchant
      item_amount item_type item_category toNumber] in Et.
    destruct (uuidv4 (uuidCalls w)) as [|c0 i0], d as [|c1 d1];
      injection Et as <- _; cbn; unfold orZero; rewrite Hamt;
      repeat split; destruct (payer r) as [[|c2 p]|]; reflexivity. }
  destruct Hfields as (Hty & Hcat & Ha & Hm).
  repeat split; auto.
  - now rewrite Ha.
  - unfold confirmImport. cbn [parsedItems].
    change (filter include [item]) with [item]. cbn [toImport].
    rewrite Et. unfold addTransactions, processedNew, uniqueNew. cbn [filter].
    destruct (isDuplicate transactions t); cbn [negb map app]; [reflexivity|].
    unfold classify. now rewrite Hty.
Qed.

Lemma paystub_import_is_income_witness :
  exists item w1 t w2,
    paystubAnalyzed sampleUuid sampleClock (Some acmePaystub) (mkImports (Some paystub) [])
      (mkWorld 0 0)
    = Some (mkImports (Some paystub) [item], w1)
    /\ toTransaction sampleUuid sampleClock item w1 = (t, w2)
    /\ type t = income /\ category t = "Income"
    /\ Some (amount t) = paystub_amount acmePaystub
    /\ merchant t = orString (payer acmePaystub) "Employer"
    /\ confirmImport sampleUuid sampleClock isoDateUTC
         (mkImports (Some paystub) [item]) [rentJan] w1
       = (mkImports None [],
          if isDuplicate [rentJan] t then [rentJan] else t :: [rentJan],
          w2).
Proof.
  apply (paystub_import_is_income sampleUuid sampleClock isoDateUTC acmePaystub
           (mkImports (Some paystub) []) [rentJan] (mkWorld 0 0)).
  reflexivity.
Defined.

(** The paystub flow, run. *)
Example paystub_flow_run :
  paystubAnalyzed sampleUuid sampleClock (Some acmePaystub)
    (mkImports (Some paystub) []) (mkWorld 0 0)
  = Some (mkImports (Some paystub)
            [mkItem (Some "id-0") (Some "2024-06-14") (Some "Acme Corp")
                    (Some 2500%float) (Some income) (Some "Income") true],
          mkWorld 1 1)
  /\ snd (fst (confirmImport sampleUuid sampleClock isoDateUTC
                 (mkImports (Some paystub)
                    [mkItem (Some "id-0") (Some "2024-06-14") (Some "Acme Corp")
                            (Some 2500%float) (Some income) (Some "Income") true])
                 [rentJan] (mkWorld 1 1)))
     = [mkTransaction "id-0" "2024-06-14" "Acme Corp" 2500 income "Income"; rentJan].
Proof. split; reflexivity. Qed.

(** ** The merge, once more *)

(** X26. No record that a merge adds duplicates a record that was already
    stored: what passes the filter still passes it after classification. *)
Theorem merged_records_are_new (newDate : string -> option JSDate)
  (H B : list Transaction) :
  Forall (fun t => isDuplicate H t = false) (processedNew newDate H B).
Proof.
  unfold processedNew. apply Forall_forall. intros t Ht.
  apply in_map_iff in Ht as (n & <- & Hn).
  apply filter_In in Hn as [_ Hk]. apply negb_true_iff in Hk.
  destruct (classify_keeps_key newDate H n) as (_ & Hd & Hm & Ha).
  unfold isDuplicate, isDuplicateOf in *. now rewrite Hd, Hm, Ha.
Qed.

(** X27. More history never takes an upgrade back: a record that recurs
    against a history recurs against every history containing it. *)
Theorem isRecurring_monotone (newDate : string -> option JSDate)
  (H older newer : list Transaction) (n : Transaction) :
  isRecurring newDate H n = true ->
  isRecurring newDate (newer ++ H ++ older) n = true.
Proof.
  unfold isRecurring. intros Hrec.
  now rewrite !existsb_app, Hrec, orb_true_r.
Qed.

Lemma isRecurring_monotone_witness :
  isRecurring isoDateUTC ([payFeb] ++ [rentJan] ++ [netflix]) rentFeb = true.
Proof.
  apply (isRecurring_monotone isoDateUTC [rentJan] [netflix] [payFeb] rentFeb).
  reflexivity.
Defined.

(** X28. Income records of the history never count as recurrence evidence:
    classifying against a history and against its non-income records gives
    the same result. *)
Theorem income_history_is_ignored (newDate : string -> option JSDate)
  (H : list Transaction) (n : Transaction) :
  classify newDate H n
  = classify newDate (filter (fun e => negb (isIncome (type e))) H) n.
Proof.
  assert (Hrec : isRecurring newDate H n
                 = isRecurring newDate (filter (fun e => negb (isIncome (type e))) H) n).
  { unfold isRecurring. induction H as [|e H IH]; simpl; [reflexivity|].
    destruct (isIncome (type e)) eqn:Ei; simpl.
    - unfold isEvidence at 1. now rewrite Ei.
    - now rewrite IH. }
  rewrite !classify_cases. now rewrite Hrec.
Qed.
